(** * GEMM library node of DaCe: validation and the three lowerings

    A shallow embedding of [dace/libraries/blas/nodes/gemm.py]: batch
    detection ([_get_batchmm_opts]), the option map shared by the BLAS
    lowerings ([_get_codegen_gemm_opts]), scalar rendering
    ([_cast_to_dtype_str]), the pure, MKL and cuBLAS expansions, and the
    node's [validate] method.

    Conventions of the embedding.
    - Python exceptions are values of [exn]; a function that may raise
      returns a [result].  The order of the checks is the order of the
      source, so the first exception raised is the one returned.
    - A [dict] with string keys is a [gmap string _]; [d[k]] on a missing
      key raises [KeyError].
    - Dimension sizes and strides are integers ([Z]).
    - The module uses the name [np] (in [_is_complex] and in [make_sdfg])
      and no statement of it binds the name: its imports, lines 1 to 11,
      bring in no numpy.  Evaluating [np] raises [NameError], and the
      embedding has it so.
    - Scalars are numbers: [complex(value)] and [str(value)] do not raise.
    - What the module imports from the rest of DaCe (the BLAS helper
      tables, the input finder of [matmul.py], the expression renderers,
      the type tables) is collected in the class [Collaborators] and every
      statement about the lowerings holds for all of its instances. *)

From Stdlib Require Import ZArith String List Bool Lia DecimalString.
From stdpp Require Import base option list gmap strings.

Open Scope string_scope.

(** ** Exceptions and results *)

Inductive exn : Type :=
| ValueError (msg : string)
| TypeError (msg : string)
| SyntaxError (msg : string)
| KeyError (key : string)
| IndexError (msg : string)
| NameError (msg : string)
| UnboundLocalError (var : string)
| AttributeError (msg : string).

Inductive result (A : Type) : Type :=
| Ok (a : A)
| Raise (e : exn).

Arguments Ok {A} a.
Arguments Raise {A} e.

#[global] Instance result_ret : MRet result := λ A a, Ok a.

#[global] Instance result_bind : MBind result :=
  λ A B f m, match m with Ok a => f a | Raise e => Raise e end.

Definition is_ok {A} (r : result A) : bool :=
  match r with Ok _ => true | Raise _ => false end.

(** ** Python primitives used by the module *)

(** [d[k]] on a dictionary. *)
Definition getitem {V} (d : gmap string V) (k : string) : result V :=
  match d !! k with
  | Some v => Ok v
  | None => Raise (KeyError k)
  end.

(** [l[i]] for a non-negative index. *)
Definition index {A} (l : list A) (i : nat) : result A :=
  match l !! i with
  | Some x => Ok x
  | None => Raise (IndexError "list index out of range")
  end.

(** [l[-i]] for [i >= 1]. *)
Definition index_back {A} (l : list A) (i : nat) : result A :=
  if (i <=? length l)%nat then index l (length l - i)
  else Raise (IndexError "list index out of range").

(** Decimal text of an integer: [str(n)], ['%d' % n]. *)
Definition dec (z : Z) : string := NilZero.string_of_int (Z.to_int z).

(** [sep.join(l)]. *)
Fixpoint join (sep : string) (l : list string) : string :=
  match l with
  | [] => ""
  | [x] => x
  | x :: rest => x +:+ sep +:+ join sep rest
  end.

(** [enumerate(l)]. *)
Definition enumerate {A} (l : list A) : list (nat * A) :=
  zip (seq 0 (length l)) l.

Definition lower_ascii (c : Ascii.ascii) : Ascii.ascii :=
  let n := Ascii.nat_of_ascii c in
  if ((65 <=? n) && (n <=? 90))%nat then Ascii.ascii_of_nat (n + 32) else c.

(** [s.lower()] on ASCII text. *)
Fixpoint lower (s : string) : string :=
  match s with
  | EmptyString => EmptyString
  | String c rest => String (lower_ascii c) (lower rest)
  end.

(** Values stored in the option map of the BLAS lowerings. *)
Inductive pyval : Type :=
| VNone
| VBool (b : bool)
| VStr (s : string)
| VSym (z : Z).

#[global] Instance pyval_eq_dec : EqDecision pyval.
Proof. solve_decision. Defined.

(** Truth value of an object in a condition. *)
Definition truthy (v : pyval) : bool :=
  match v with
  | VNone => false
  | VBool b => b
  | VStr s => negb (String.eqb s "")
  | VSym z => negb (z =? 0)%Z
  end.

(** [str(v)], as [format_map] renders a field. *)
Definition py_str (v : pyval) : string :=
  match v with
  | VNone => "None"
  | VBool true => "True"
  | VBool false => "False"
  | VStr s => s
  | VSym z => dec z
  end.

(** A format template, cut at its replacement fields. *)
Inductive piece : Type :=
| Lit (text : string)
| Field (key : string).

(** [template.format_map(opt)]. *)
Fixpoint format_map (template : list piece) (opt : gmap string pyval)
  : result string :=
  match template with
  | [] => Ok ""
  | Lit s :: rest => tail ← format_map rest opt; Ok (s +:+ tail)
  | Field k :: rest =>
      v ← getitem opt k; tail ← format_map rest opt; Ok (py_str v +:+ tail)
  end.

(** ** Batch detection *)

(** A sequence that may be [None], in a condition: [None] and the empty
    sequence are false. *)
Definition seq_truthy (s : option (list Z)) : bool :=
  match s with
  | Some (_ :: _) => true
  | _ => false
  end.

Definition seq_len (s : option (list Z)) : nat :=
  match s with
  | Some l => length l
  | None => 0
  end.

(** [batch and batch != d]: a batch size that is [None] or [0] is false. *)
Definition batch_differs (batch : option Z) (d : Z) : bool :=
  match batch with
  | Some v => negb (v =? 0)%Z && negb (v =? d)%Z
  | None => false
  end.

Definition batch_mismatch : exn :=
  ValueError "Batch size mismatch for matrix multiplication".

Definition too_many_dimensions : exn :=
  ValueError
    "Tensor dimensions too large for (batched) matrix multiplication".

(** [_get_batchmm_opts]: the empty dictionary when no batch is detected,
    otherwise the dictionary with keys [sa], [sb], [sc] and [b]. *)
Definition _get_batchmm_opts (a_shape a_strides b_shape b_strides : list Z)
    (c_shape : option (list Z)) (c_strides : list Z)
  : result (gmap string Z) :=
  if (3 <? length a_shape)%nat || (3 <? length b_shape)%nat
     || (seq_truthy c_shape && (3 <? seq_len c_shape)%nat)
  then Raise too_many_dimensions
  else if (length a_shape <=? 2)%nat && (length b_shape <=? 2)%nat
  then Ok ∅
  else
    '(batch, stride_a) ←
      (if (length a_shape =? 3)%nat
       then d ← index a_shape 0; s ← index a_strides 0; Ok (Some d, s)
       else Ok (None, 0%Z));
    '(batch, stride_b) ←
      (if (length b_shape =? 3)%nat
       then
         d ← index b_shape 0;
         if batch_differs batch d then Raise batch_mismatch
         else s ← index b_strides 0; Ok (Some d, s)
       else Ok (batch, 0%Z));
    '(batch, stride_c) ←
      (if seq_truthy c_shape && (seq_len c_shape =? 3)%nat
       then
         d ← index (default [] c_shape) 0;
         if batch_differs batch d then Raise batch_mismatch
         else s ← index c_strides 0; Ok (Some d, s)
       else Ok (batch, 0%Z));
    match batch with
    | None => Ok ∅
    | Some n =>
        Ok (<["sa" := stride_a]> (<["sb" := stride_b]>
              (<["sc" := stride_c]> (<["b" := n]> ∅))))
    end.

(** ** Element types, scalars and storage *)

(** The numpy scalar types that key DaCe's type table. *)
Inductive nptype : Type :=
| bool_ | int8 | int16 | int32 | int64
| uint8 | uint16 | uint32 | uint64
| float16 | float32 | float64
| complex64 | complex128.

#[global] Instance nptype_eq_dec : EqDecision nptype.
Proof. solve_decision. Defined.

(** The type of a scalar constant: a Python builtin or a numpy scalar
    type (the members of [dace.dtypes._CONSTANT_TYPES]). *)
Inductive pytype : Type :=
| builtin_bool | builtin_int | builtin_float | builtin_complex | builtin_str
| numpy (t : nptype).

#[global] Instance pytype_eq_dec : EqDecision pytype.
Proof. solve_decision. Defined.

(** A scalar constant ([alpha], [beta]), through what the module observes
    of it: its type, the outcome of [value == 1.0] and [value == 0], its
    text [str(value)], and the texts of the real and imaginary parts of
    [complex(value)]. *)
Record Scalar : Type := {
  py_type : pytype;
  eq_one : bool;
  eq_zero : bool;
  text : string;
  real : string;
  imag : string
}.

(** Modelled from the spec: the storage location tag of an operand (host,
    pinned-host, device), declared in [dace.dtypes.StorageType]; the source
    names [GPU_Global] and [CPU_Pinned]. *)
Inductive StorageType : Type :=
| Default | CPU_Heap | CPU_Pinned | GPU_Global | GPU_Shared | FPGA_Global.

#[global] Instance StorageType_eq_dec : EqDecision StorageType.
Proof. solve_decision. Defined.

Inductive Language : Type := Python | CPP.

(** ** Data descriptors, memlets, edges and nodes *)

Module Array.
Record t : Type := mk {
  shape : list Z;
  strides : list Z;
  dtype : nptype;
  storage : StorageType;
  transient : bool
}.
End Array.

(** A memlet subset: a range, by the number of elements of each dimension,
    or one index expression per dimension (written ["i, j"] in the source). *)
Module Subset.
Inductive t : Type :=
| Range (sizes : list Z)
| Indices (idx : list string).

(** Modelled from the spec: [size()] of the access-pattern subset object
    (defined in [dace.subsets]), the number of elements per dimension. *)
Definition size (s : t) : list Z :=
  match s with
  | Range sizes => sizes
  | Indices idx => map (λ _, 1%Z) idx
  end.

(** Modelled from the spec: [squeeze()] of the access-pattern subset object
    (defined in [dace.subsets]) drops the unit dimensions. *)
Definition squeeze (s : t) : t :=
  match s with
  | Range sizes => Range (filter (λ d, d ≠ 1%Z) sizes)
  | Indices _ => Range []
  end.
End Subset.

Module Memlet.
Record t : Type := mk {
  data : string;
  subset : Subset.t;
  wcr : option string
}.
(** [dace.Memlet.simple(data, "i, j", wcr_str=...)]. *)
Definition simple (data : string) (idx : list string) (wcr_str : option string)
  : t := mk data (Subset.Indices idx) wcr_str.
(** [dace.Memlet.from_array(name, desc)]: the whole array. *)
Definition from_array (name : string) (desc : Array.t) : t :=
  mk name (Subset.Range (Array.shape desc)) None.
End Memlet.

Module Tasklet.
Record t : Type := mk {
  name : string;
  in_connectors : gset string;
  out_connectors : gset string;
  code : string;
  language : Language
}.
End Tasklet.

Inductive AccessType : Type := ReadOnly | WriteOnly | ReadWrite.

(** A node of a state graph. *)
Inductive GraphNode : Type :=
| AccessNode (data : string) (access : AccessType)
| TaskletNode (t : Tasklet.t)
| ScopeNode (label : string).

(** An edge of the parent state at the library node: its connectors, its
    memlet, and the two ends of its memlet path
    ([state.memlet_path(e)[0].src] and [state.memlet_path(e)[-1].dst]). *)
Module Edge.
Record t : Type := mk {
  src_conn : option string;
  dst_conn : option string;
  data : Memlet.t;
  path_src : GraphNode;
  path_dst : GraphNode
}.
End Edge.

(** The parent state as the module reads it: [state.in_edges(node)] and
    [state.out_edges(node)] of the library node. *)
Record ParentState : Type := {
  in_edges : list Edge.t;
  out_edges : list Edge.t
}.

(** The parent SDFG as the module reads it: [sdfg.arrays]. *)
Record ParentSDFG : Type := {
  parent_name : string;
  parent_arrays : gmap string Array.t
}.

(** ** The library node and its validation *)

Definition not_matrices : exn :=
  ValueError "matrix-matrix product only supported on matrices".

(** [len(None)]. *)
Definition none_has_no_len : exn :=
  TypeError "object of type 'NoneType' has no len()".

(** Reading a local variable that no assignment has reached yet. *)
Definition local {A} (var : string) (v : option A) : result A :=
  match v with
  | Some x => Ok x
  | None => Raise (UnboundLocalError var)
  end.

(** [subset = dc(memlet.subset); subset.squeeze(); subset.size()]. *)
Definition squeezed_size (memlet : Memlet.t) : list Z :=
  Subset.size (Subset.squeeze (Memlet.subset memlet)).

Module Gemm.
Record t : Type := mk {
  name : string;
  dtype : option nptype;
  transA : bool;
  transB : bool;
  alpha : Scalar;
  beta : Scalar;
  in_connectors : gset string;
  out_connectors : gset string
}.

Definition __init__ (name : string) (dtype : option nptype)
    (transA transB : bool) (alpha beta : Scalar) : t :=
  mk name dtype transA transB alpha beta {["_a"; "_b"; "_c"]} {["_y"]}.

(** One turn of the loop over the input edges.  The three locals are
    [size0] and [size1], unbound until an [_a] or [_b] edge is met, and
    [size2], which starts as [None]. *)
Definition bind_sizes
    (locals : option (list Z) * option (list Z) * option (list Z))
    (e : Edge.t) : option (list Z) * option (list Z) * option (list Z) :=
  let '(size0, size1, size2) := locals in
  let s := squeezed_size (Edge.data e) in
  let size0 := if decide (Edge.dst_conn e = Some "_a") then Some s else size0 in
  let size1 := if decide (Edge.dst_conn e = Some "_b") then Some s else size1 in
  let size2 := if decide (Edge.dst_conn e = Some "_c") then Some s else size2 in
  (size0, size1, size2).

Definition validate (self : t) (sdfg : ParentSDFG) (state : ParentState)
  : result unit :=
  let ins := in_edges state in
  if negb (bool_decide (length ins ∈ [2; 3]%nat))
  then Raise (ValueError "Expected 2 or 3 inputs to gemm")
  else
  let '(size0, size1, size2) := foldl bind_sizes (None, None, None) ins in
  let outs := out_edges state in
  if negb (length outs =? 1)%nat
  then Raise (ValueError
                "Expected exactly one output from matrix-matrix product")
  else
  out_edge ← index outs 0;
  let out_memlet := Edge.data out_edge in
  s0 ← local "size0" size0;
  if negb (length s0 =? 2)%nat then Raise not_matrices else
  s1 ← local "size1" size1;
  if negb (length s1 =? 2)%nat then Raise not_matrices else
  len2 ← match size2 with
         | Some s2 => Ok (length s2)
         | None => Raise none_has_no_len
         end;
  if negb (len2 =? 2)%nat then Raise not_matrices else
  k0 ← index s0 1;
  k1 ← index s1 0;
  if negb (k0 =? k1)%Z
  then Raise (ValueError
                "Inputs to matrix-matrix product must agree in the k-dimension")
  else
  let size3 := squeezed_size out_memlet in
  if negb (length size3 =? 2)%nat then Raise not_matrices else
  m ← index_back s0 2;
  n ← index_back s1 1;
  if (length size3 =? 2)%nat && negb (bool_decide (size3 = [m; n]))
  then Raise (ValueError
                "Output to matrix-matrix product must agree in the m and n dimensions")
  else
  match size2 with
  | Some s2 =>
      if negb (bool_decide (s2 = size3))
      then Raise (ValueError
                    "Sizes of input and output C-matrix do not match")
      else Ok ()
  | None => Ok ()
  end.
End Gemm.

(** ** What the module imports from the rest of DaCe *)

(** One operand as [_get_matmul_inputs] returns it: the edge, the array it
    reads, and the shape and strides of the part that is read. *)
Record MatmulInput : Type := {
  edge : Edge.t;
  outer_array : Array.t;
  in_shape : list Z;
  in_strides : list Z
}.

(** The result of [_get_matmul_inputs].  The BLAS option builder unpacks
    the [_a] and [_b] operands with their strides; the pure lowering
    unpacks the two operands and [c_inputs], which is [None] without a
    [_c] edge. *)
Record MatmulInputs : Type := {
  input_a : MatmulInput;
  input_b : MatmulInput;
  c_inputs : option MatmulInput
}.

Class Collaborators : Type := {
  (** [blas_helpers.to_blastype]: the BLAS letter of an element type. *)
  to_blastype : nptype → result string;
  (** [blas_helpers.get_gemm_opts]: keys [swap], [lda], [ldb], [ldc],
      [ta] and [tb]. *)
  get_gemm_opts : list Z → list Z → list Z → result (gmap string pyval);
  (** [matmul._get_matmul_inputs]. *)
  _get_matmul_inputs :
    Gemm.t → ParentState → ParentSDFG → result MatmulInputs;
  (** The renderers of dimension expressions. *)
  sym2cpp : pyval → string;
  symstr : Z → string;
  (** [environments.cublas.cuBLAS.handle_setup_code]. *)
  handle_setup_code : Gemm.t → string;
  (** [numpy.result_type] on two element types, as a key of DaCe's type
      table. *)
  result_type : nptype → nptype → nptype;
  (** [dace.DTYPE_TO_TYPECLASS[t].to_string()], also [str] of the type. *)
  to_string : nptype → string;
  (** The C type name of an element type. *)
  ctype : nptype → string
}.

(** ** The option map of the BLAS lowerings *)

(** [if d:] on a dictionary. *)
Definition dict_truthy {V} `{EqDecision V} (d : gmap string V) : bool :=
  negb (bool_decide (d = ∅)).

(** [d[k1], d[k2] = d[k2], d[k1]]. *)
Definition swap_items {V} (k1 k2 : string) (d : gmap string V)
  : result (gmap string V) :=
  v2 ← getitem d k2;
  v1 ← getitem d k1;
  Ok (<[k2 := v1]> (<[k1 := v2]> d)).

(** The body of [if opt['swap']:]. *)
Definition swap_operands (opts : gmap string pyval * gmap string Z)
  : result (gmap string pyval * gmap string Z) :=
  let '(opt, bopt) := opts in
  bopt ← (if dict_truthy bopt then swap_items "sa" "sb" bopt else Ok bopt);
  opt ← swap_items "lda" "ldb" opt;
  opt ← swap_items "x" "y" opt;
  opt ← swap_items "ta" "tb" opt;
  opt ← swap_items "M" "N" opt;
  Ok (opt, bopt).

(** [opt[k] = sym2cpp(opt[k])]. *)
Definition render_item `{Collaborators} (k : string) (opt : gmap string pyval)
  : result (gmap string pyval) :=
  v ← getitem opt k;
  Ok (<[k := VStr (sym2cpp v)]> opt).

(** The batch fields of the option map: the rendered strides and batch
    size, or [BATCH = None]. *)
Definition batch_items `{Collaborators} (bopt : gmap string Z)
    (opt : gmap string pyval) : result (gmap string pyval) :=
  if dict_truthy bopt then
    sa ← getitem bopt "sa";
    let opt := <["stride_a" := VStr (sym2cpp (VSym sa))]> opt in
    sb ← getitem bopt "sb";
    let opt := <["stride_b" := VStr (sym2cpp (VSym sb))]> opt in
    sc ← getitem bopt "sc";
    let opt := <["stride_c" := VStr (sym2cpp (VSym sc))]> opt in
    b ← getitem bopt "b";
    Ok (<["BATCH" := VStr (sym2cpp (VSym b))]> opt)
  else Ok (<["BATCH" := VNone]> opt).

Definition _get_codegen_gemm_opts `{Collaborators} (node : Gemm.t)
    (state : ParentState) (sdfg : ParentSDFG) (adesc bdesc cdesc : Array.t)
    (alpha beta cdtype func : string) : result (gmap string pyval) :=
  inputs ← _get_matmul_inputs node state sdfg;
  let ashape := in_shape (input_a inputs) in
  let astride := in_strides (input_a inputs) in
  let bshape := in_shape (input_b inputs) in
  let bstride := in_strides (input_b inputs) in
  opt ← get_gemm_opts astride bstride (Array.strides cdesc);
  bopt ← _get_batchmm_opts ashape astride bshape bstride
           (Some (Array.shape cdesc)) (Array.strides cdesc);
  let opt := <["x" := VStr "_a"]> opt in
  let opt := <["y" := VStr "_b"]> opt in
  m ← index_back ashape 2;
  let opt := <["M" := VStr (sym2cpp (VSym m))]> opt in
  n ← index_back bshape 1;
  let opt := <["N" := VStr (sym2cpp (VSym n))]> opt in
  k ← index_back ashape 1;
  let opt := <["K" := VStr (sym2cpp (VSym k))]> opt in
  opt ← render_item "lda" opt;
  opt ← render_item "ldb" opt;
  opt ← render_item "ldc" opt;
  swap ← getitem opt "swap";
  '(opt, bopt) ← (if truthy swap then swap_operands (opt, bopt)
                  else Ok (opt, bopt));
  let opt := <["alpha" := VStr alpha]> opt in
  let opt := <["beta" := VStr beta]> opt in
  let opt := <["dtype" := VStr cdtype]> opt in
  let opt := <["func" := VStr func]> opt in
  batch_items bopt opt.

(** ** Scalar rendering of the pure lowering *)

Definition np_unbound : exn := NameError "name 'np' is not defined".

(** An expression that starts with the global name [np].  No statement of
    the module binds [np], so looking the name up raises [NameError] before
    anything of the expression is computed; [v] is what the expression
    would go on to compute from the numpy package. *)
Definition np {A} (v : A) : result A := Raise np_unbound.

(** None of the type objects of [pytype] has an [is_complex] attribute,
    so the [else] branch is taken, which evaluates [np.complex64]. *)
Definition _is_complex (dtype : pytype) : result bool :=
  np (bool_decide (dtype ∈ [numpy complex64; numpy complex128])).

Definition complex_scalar_error : exn :=
  ValueError "Cannot use complex beta with non-complex array".

Definition _cast_to_dtype_str `{Collaborators} (value : Scalar)
    (dtype : nptype) : result string :=
  _is_complex (numpy dtype) ≫= λ complex_dtype : bool,
  (if complex_dtype then _is_complex (py_type value) else Ok false)
  ≫= λ complex_both : bool,
  if complex_both then Raise complex_scalar_error
  else
    _is_complex (numpy dtype) ≫= λ complex_dtype : bool,
    if complex_dtype
    then Ok ("dace." +:+ to_string dtype +:+ "(" +:+ real value +:+ ", "
             +:+ imag value +:+ ")")
    else Ok ("dace." +:+ to_string dtype +:+ "(" +:+ text value +:+ ")").

(** ** The graphs the lowerings build

    Modelled from the spec: the "graph/region construction primitives" of
    the host IR ("add array/temporary declaration, add computation region
    with declared parallel index ranges and per-element read/write access
    expressions, add explicit data-movement edge, add raw-code operation"),
    defined in [dace.sdfg] and not in this module.  An SDFG is the record
    of what was added to it: its arrays by name, its states in order, and
    in each state the nodes, the edges and the mapped tasklets, each kept
    with the arguments of the call that added it. *)

(** One call of [add_mapped_tasklet], by its arguments. *)
Module MappedTasklet.
Record t : Type := mk {
  name : string;
  map_ranges : list (string * string);
  inputs : list (string * Memlet.t);
  code : string;
  outputs : list (string * Memlet.t);
  external_edges : bool;
  input_nodes : option (list (string * nat));
  output_nodes : option (list (string * nat))
}.
End MappedTasklet.

(** An edge added to a state under construction; nodes are named by
    their position in the state's node list. *)
Module StateEdge.
Record t : Type := mk {
  src : nat;
  src_conn : option string;
  dst : nat;
  dst_conn : option string;
  data : Memlet.t
}.
End StateEdge.

Module SDFGState.
Record t : Type := mk {
  label : string;
  nodes : list GraphNode;
  edges : list StateEdge.t;
  maps : list MappedTasklet.t
}.

Definition new (label : string) : t := mk label [] [] [].

Definition add_node (n : GraphNode) (st : t) : nat * t :=
  (length (nodes st), mk (label st) (nodes st ++ [n]) (edges st) (maps st)).

Definition add_read (data : string) : t → nat * t :=
  add_node (AccessNode data ReadOnly).

Definition add_write (data : string) : t → nat * t :=
  add_node (AccessNode data WriteOnly).

Definition add_access (data : string) : t → nat * t :=
  add_node (AccessNode data ReadWrite).

Definition add_edge (src : nat) (src_conn : option string) (dst : nat)
    (dst_conn : option string) (memlet : Memlet.t) (st : t) : t :=
  mk (label st) (nodes st)
     (edges st ++ [StateEdge.mk src src_conn dst dst_conn memlet]) (maps st).

Definition add_nedge (src dst : nat) (memlet : Memlet.t) : t → t :=
  add_edge src None dst None memlet.

Definition add_mapped_tasklet (m : MappedTasklet.t) (st : t) : t :=
  mk (label st) (nodes st) (edges st) (maps st ++ [m]).
End SDFGState.

(** Modelled from the spec: "the IR's native array layout is row-major";
    [add_array] and [add_temp_transient] (defined in [dace.sdfg]) give a
    new array these strides. *)
Fixpoint row_major_strides (shape : list Z) : list Z :=
  match shape with
  | [] => []
  | _ :: rest => fold_right Z.mul 1%Z rest :: row_major_strides rest
  end.

Module SDFG.
Record t : Type := mk {
  name : string;
  arrays : gmap string Array.t;
  states : list SDFGState.t;
  transitions : list (nat * nat);
  parent : option string;
  parent_sdfg : option string
}.

Definition new (name : string) : t := mk name ∅ [] [] None None.

Definition add_datadesc (name : string) (desc : Array.t) (g : t) : result t :=
  match arrays g !! name with
  | Some _ => Raise (NameError name)
  | None =>
      Ok (mk (SDFG.name g) (<[name := desc]> (arrays g)) (states g)
             (transitions g) (parent g) (parent_sdfg g))
  end.

Definition add_array (name : string) (shape : list Z) (dtype : nptype)
    (storage : StorageType) (g : t) : result (string * Array.t * t) :=
  let desc := Array.mk shape (row_major_strides shape) dtype storage false in
  g ← add_datadesc name desc g;
  Ok (name, desc, g).

(** Modelled from the spec: the temporary is "freshly declared"; its name
    (chosen by [dace.sdfg]) is the first of [__tmp0], [__tmp1], ... that
    names no array yet. *)
Fixpoint temp_data_name (arrays : gmap string Array.t) (fuel i : nat)
  : string :=
  let candidate := "__tmp" +:+ dec (Z.of_nat i) in
  match fuel with
  | O => candidate
  | S fuel =>
      match arrays !! candidate with
      | None => candidate
      | Some _ => temp_data_name arrays fuel (S i)
      end
  end.

Definition add_temp_transient (shape : list Z) (dtype : nptype)
    (storage : StorageType) (g : t) : result (string * Array.t * t) :=
  let name := temp_data_name (arrays g) (size (arrays g)) 0 in
  let desc := Array.mk shape (row_major_strides shape) dtype storage true in
  g ← add_datadesc name desc g;
  Ok (name, desc, g).

Definition add_state (label : string) (g : t) : nat * t :=
  (length (states g),
   mk (SDFG.name g) (arrays g) (states g ++ [SDFGState.new label])
      (transitions g) (parent g) (parent_sdfg g)).

Definition add_state_after (prev : nat) (label : string) (g : t) : nat * t :=
  let '(s, g) := add_state label g in
  (s, mk (SDFG.name g) (arrays g) (states g) (transitions g ++ [(prev, s)])
         (parent g) (parent_sdfg g)).

(** A call on a state object held by the SDFG. *)
Definition on_state {A} (s : nat) (f : SDFGState.t → A * SDFGState.t) (g : t)
  : result (A * t) :=
  st ← index (states g) s;
  let '(a, st) := f st in
  Ok (a, mk (SDFG.name g) (arrays g) (<[s := st]> (states g)) (transitions g)
            (parent g) (parent_sdfg g)).

Definition set_parent (p : string) (g : t) : t :=
  mk (SDFG.name g) (arrays g) (states g) (transitions g) (Some p)
     (parent_sdfg g).

Definition set_parent_sdfg (p : string) (g : t) : t :=
  mk (SDFG.name g) (arrays g) (states g) (transitions g) (parent g) (Some p).
End SDFG.

(** ** The pure lowering *)

Module ExpandGemmPure.
Section WithCollaborators.
Context `{Collaborators}.

Definition sizes_mismatch : exn := SyntaxError "Matrix sizes must match".

Definition storage_mismatch : exn :=
  ValueError "Input matrices must have same storage".

(** ['prefix%d' % i]. *)
Definition numbered (prefix : string) (i : nat) : string :=
  prefix +:+ dec (Z.of_nat i).

(** The initialization map over the output. *)
Definition init_map (shape_y : list Z) (mul_out : string) : MappedTasklet.t :=
  MappedTasklet.mk "gemm_init"
    (map (λ '(i, d), (numbered "_o" i, "0:" +:+ symstr d)) (enumerate shape_y))
    []
    "out = 0"
    [("out",
      Memlet.simple mul_out (map (numbered "_o") (seq 0 (length shape_y)))
        None)]
    true None None.

(** The multiplication map over [(M, N, K)]. *)
Definition mul_map (node : Gemm.t) (M N K : Z) (mul_program mul_out : string)
    (output_nodes : option (list (string * nat))) : MappedTasklet.t :=
  MappedTasklet.mk "_GEMM_"
    (map (λ '(i, s), (numbered "__i" i, "0:" +:+ dec s)) (enumerate [M; N; K]))
    [("__a",
      Memlet.simple "_a"
        (if Gemm.transA node then ["__i2"; "__i0"] else ["__i0"; "__i2"])
        None);
     ("__b",
      Memlet.simple "_b"
        (if Gemm.transB node then ["__i1"; "__i2"] else ["__i2"; "__i1"])
        None)]
    mul_program
    [("__out",
      Memlet.simple mul_out ["__i0"; "__i1"] (Some "lambda x, y: x + y"))]
    true None output_nodes.

(** The index of [_c] that broadcasts it to [(M, N)]. *)
Definition broadcast_index (shape_c : list Z) (M N : Z)
  : result (list string) :=
  if bool_decide (shape_c = [M; N]) then Ok ["__i0"; "__i1"]
  else if bool_decide (shape_c = [1%Z; N]) then Ok ["0"; "__i1"]
  else if bool_decide (shape_c = [M; 1%Z]) then Ok ["__i0"; "0"]
  else if bool_decide (shape_c = [N]) then Ok ["__i1"]
  else Raise (ValueError ("Could not broadcast input _c to (" +:+ dec M
                          +:+ ", " +:+ dec N +:+ ")")).

(** The addition map over [(M, N)]. *)
Definition add_map (M N : Z) (add_program mul_out : string)
    (memlet_idx : list string) (access_tmp : nat) : MappedTasklet.t :=
  MappedTasklet.mk "_Add_"
    (map (λ '(i, s), (numbered "__i" i, "0:" +:+ dec s)) (enumerate [M; N]))
    [("__c", Memlet.simple "_c" memlet_idx None);
     ("__tmp", Memlet.simple mul_out ["__i0"; "__i1"] None)]
    add_program
    [("__y", Memlet.simple "_y" ["__i0"; "__i1"] None)]
    true (Some [(mul_out, access_tmp)]) None.

Definition make_sdfg (node : Gemm.t) (parent_state : ParentState)
    (parent_sdfg : ParentSDFG) : result SDFG.t :=
  let sdfg := SDFG.new (Gemm.name node +:+ "_sdfg") in
  inputs ← _get_matmul_inputs node parent_state parent_sdfg;
  let outer_array_a := outer_array (input_a inputs) in
  let shape_a := in_shape (input_a inputs) in
  let outer_array_b := outer_array (input_b inputs) in
  let shape_b := in_shape (input_b inputs) in
  let dtype_a := Array.dtype outer_array_a in
  let dtype_b := Array.dtype outer_array_b in
  dtype_y ← np (result_type dtype_a dtype_b);
  let trans_shape_a := if Gemm.transA node then reverse shape_a else shape_a in
  let trans_shape_b := if Gemm.transB node then reverse shape_b else shape_b in
  if negb (length trans_shape_a =? 2)%nat || negb (length trans_shape_b =? 2)%nat
  then Raise sizes_mismatch
  else
  ka ← index trans_shape_a 1;
  kb ← index trans_shape_b 0;
  if negb (ka =? kb)%Z then Raise sizes_mismatch else
  M ← index trans_shape_a 0;
  K ← index trans_shape_a 1;
  N ← index trans_shape_b 1;
  let shape_y := [M; N] in
  if negb (bool_decide (Array.storage outer_array_a = Array.storage outer_array_b))
  then Raise storage_mismatch
  else
  let storage := Array.storage outer_array_a in
  '(_, array_a, sdfg) ← SDFG.add_array "_a" shape_a dtype_a storage sdfg;
  '(_, array_b, sdfg) ← SDFG.add_array "_b" shape_b dtype_b storage sdfg;
  sdfg ← match c_inputs inputs with
         | Some c =>
             '(_, array_c, sdfg) ←
               SDFG.add_array "_c" (in_shape c) (Array.dtype (outer_array c))
                 storage sdfg;
             Ok sdfg
         | None => Ok sdfg
         end;
  '(_, array_y, sdfg) ← SDFG.add_array "_y" shape_y dtype_y storage sdfg;
  mul_program ←
    (if eq_one (Gemm.alpha node) then Ok "__out = __a * __b"
     else
       factor ← _cast_to_dtype_str (Gemm.alpha node) dtype_a;
       Ok ("__out = " +:+ factor +:+ " * __a * __b"));
  let '(init_state, sdfg) :=
    SDFG.add_state (Gemm.name node +:+ "_initstate") sdfg in
  let '(state, sdfg) :=
    SDFG.add_state_after init_state (Gemm.name node +:+ "_state") sdfg in
  '(mul_out, output_nodes, access_tmp, sdfg) ←
    (if bool_decide (c_inputs inputs = None) || eq_zero (Gemm.beta node)
     then Ok ("_y", None, None, sdfg)
     else
       '(tmp, array_tmp, sdfg) ←
         SDFG.add_temp_transient shape_y dtype_y storage sdfg;
       '(access_tmp, sdfg) ←
         SDFG.on_state state (SDFGState.add_read tmp) sdfg;
       Ok (tmp, Some [(tmp, access_tmp)], Some access_tmp, sdfg));
  '(_, sdfg) ←
    SDFG.on_state init_state
      (λ st, ((), SDFGState.add_mapped_tasklet (init_map shape_y mul_out) st))
      sdfg;
  '(_, sdfg) ←
    SDFG.on_state state
      (λ st, ((), SDFGState.add_mapped_tasklet
                    (mul_map node M N K mul_program mul_out output_nodes) st))
      sdfg;
  sdfg ←
    match c_inputs inputs with
    | Some c =>
        if negb (eq_zero (Gemm.beta node)) then
          factor ← _cast_to_dtype_str (Gemm.beta node) dtype_a;
          let add_program := "__y = (" +:+ factor +:+ " * __c) + __tmp" in
          memlet_idx ← broadcast_index (in_shape c) M N;
          access_tmp ← local "access_tmp" access_tmp;
          '(_, sdfg) ←
            SDFG.on_state state
              (λ st, ((), SDFGState.add_mapped_tasklet
                            (add_map M N add_program mul_out memlet_idx
                               access_tmp) st))
              sdfg;
          Ok (SDFG.set_parent (parent_name parent_sdfg) sdfg)
        else Ok sdfg
    | None => Ok sdfg
    end;
  Ok (SDFG.set_parent_sdfg (parent_name parent_sdfg) sdfg).

Definition expansion (node : Gemm.t) (state : ParentState) (sdfg : ParentSDFG)
  : result SDFG.t :=
  _ ← Gemm.validate node sdfg state;
  match Gemm.dtype node with
  | None =>
      Raise (ValueError ("Data type must be set to expand " +:+ Gemm.name node
                         +:+ "."))
  | Some _ => make_sdfg node state sdfg
  end.
End WithCollaborators.
End ExpandGemmPure.

(** ** The MKL lowering *)

Definition nl : string := String (Ascii.ascii_of_nat 10) EmptyString.

(** [dtype.type] of the node's element type, which may be [None]. *)
Definition dtype_type (node : Gemm.t) : result nptype :=
  match Gemm.dtype node with
  | Some t => Ok t
  | None => Raise (AttributeError "'NoneType' object has no attribute 'type'")
  end.

Module ExpandGemmMKL.
Section WithCollaborators.
Context `{Collaborators}.

Definition unsupported_type (dtype : nptype) : exn :=
  ValueError ("Unsupported type for BLAS dot product: " +:+ to_string dtype).

(** The routine name and the constants for [alpha] and [beta], chosen by
    the element type (the start of [expansion], up to the [raise]). *)
Definition select_routine (node : Gemm.t) : result (string * string * string) :=
  dtype ← dtype_type node;
  letter ← to_blastype dtype;
  let func := lower letter +:+ "gemm" in
  if decide (dtype = float32) then Ok (func, "1.0f", "0.0f")
  else if decide (dtype = float64) then Ok (func, "1.0", "0.0")
  else if decide (dtype = complex64) then
    Ok (func, "dace::blas::BlasConstants::Get().Complex64Pone()",
        "dace::blas::BlasConstants::Get().Complex64Zero()")
  else if decide (dtype = complex128) then
    Ok (func, "dace::blas::BlasConstants::Get().Complex128Pone()",
        "dace::blas::BlasConstants::Get().Complex128Zero()")
  else Raise (unsupported_type dtype).

Definition call_template : list piece :=
  [Lit "cblas_"; Field "func"; Lit "(CblasColMajor, "; Field "ta"; Lit ", ";
   Field "tb"; Lit ", "; Field "M"; Lit ", "; Field "N"; Lit ", "; Field "K";
   Lit ", "; Field "alpha"; Lit ", "; Field "x"; Lit ", "; Field "lda";
   Lit ", "; Field "y"; Lit ", "; Field "ldb"; Lit ", "; Field "beta";
   Lit ", _c, "; Field "ldc"; Lit ");"].

Definition batched_template : list piece :=
  [Lit (nl +:+ "            for (int __ib = 0; __ib < "); Field "BATCH";
   Lit ("; ++__ib) {" +:+ nl +:+ "                cblas_"); Field "func";
   Lit "(CblasColMajor, "; Field "ta"; Lit ", "; Field "tb"; Lit ", ";
   Field "M"; Lit ", "; Field "N"; Lit ", "; Field "K"; Lit ", ";
   Field "alpha";
   Lit ("," +:+ nl +:+ "                             (("); Field "dtype";
   Lit "*)"; Field "x"; Lit ") + __ib*"; Field "stride_a"; Lit ", ";
   Field "lda";
   Lit ("," +:+ nl +:+ "                             (("); Field "dtype";
   Lit "*)"; Field "y"; Lit ") + __ib*"; Field "stride_b"; Lit ", ";
   Field "ldb";
   Lit ("," +:+ nl +:+ "                             "); Field "beta";
   Lit ("," +:+ nl +:+ "                             (("); Field "dtype";
   Lit "*)_c) + __ib*"; Field "stride_c"; Lit ", "; Field "ldc";
   Lit (");" +:+ nl +:+ "            }")].

(** The transpose code in the spelling of the CBLAS interface. *)
Definition cblas_trans (code : pyval) : pyval :=
  VStr (if decide (code = VStr "N") then "CblasNoTrans" else "CblasTrans").

(** The rest of [expansion]: the option map, the call text, the tasklet. *)
Definition emit (node : Gemm.t) (state : ParentState) (sdfg : ParentSDFG)
    (func alpha beta : string) : result Tasklet.t :=
  inputs ← _get_matmul_inputs node state sdfg;
  let adesc := outer_array (input_a inputs) in
  let bdesc := outer_array (input_b inputs) in
  out_edge ← index (out_edges state) 0;
  cdesc ← getitem (parent_arrays sdfg) (Memlet.data (Edge.data out_edge));
  opt ← _get_codegen_gemm_opts node state sdfg adesc bdesc cdesc alpha beta
          (ctype (Array.dtype cdesc)) func;
  ta ← getitem opt "ta";
  let opt := <["ta" := cblas_trans ta]> opt in
  tb ← getitem opt "tb";
  let opt := <["tb" := cblas_trans tb]> opt in
  batch ← getitem opt "BATCH";
  code ← (if negb (truthy batch) then format_map call_template opt
          else format_map batched_template opt);
  Ok (Tasklet.mk (Gemm.name node) (Gemm.in_connectors node)
        (Gemm.out_connectors node) code CPP).

Definition expansion (node : Gemm.t) (state : ParentState) (sdfg : ParentSDFG)
  : result Tasklet.t :=
  _ ← Gemm.validate node sdfg state;
  '(func, alpha, beta) ← select_routine node;
  emit node state sdfg func alpha beta.
End WithCollaborators.
End ExpandGemmMKL.

(** ** The cuBLAS lowering *)

(** What an expansion puts in place of the library node. *)
Inductive Expansion : Type :=
| BareTasklet (t : Tasklet.t)
| NestedSDFG (g : SDFG.t).

(** A [for] loop whose body may raise, threading the locals it assigns. *)
Fixpoint for_each {A S} (body : S → A → result S) (l : list A) (s : S)
  : result S :=
  match l with
  | [] => Ok s
  | x :: rest => s ← body s x; for_each body rest s
  end.

Module ExpandGemmCuBLAS.
Section WithCollaborators.
Context `{Collaborators}.

Definition unsupported_type (dtype : nptype) : exn :=
  ValueError ("Unsupported type: " +:+ to_string dtype).

Definition unsupported_arrays : exn :=
  ValueError "Unsupported input/output arrays".

(** The routine name, the C type and the name of the constants, chosen by
    the element type. *)
Definition select_routine (node : Gemm.t) : result (string * string * string) :=
  dtype ← dtype_type node;
  letter ← to_blastype dtype;
  let func := letter +:+ "gemm" in
  if decide (dtype = float16) then Ok (func, "__half", "Half")
  else if decide (dtype = float32) then Ok (func, "float", "Float")
  else if decide (dtype = float64) then Ok (func, "double", "Double")
  else if decide (dtype = complex64) then Ok (func, "cuComplex", "Complex64")
  else if decide (dtype = complex128)
  then Ok (func, "cuDoubleComplex", "Complex128")
  else Raise (unsupported_type dtype).

Definition constant (factort suffix : string) : string :=
  "dace::blas::CublasConstants::Get(__dace_cuda_device)." +:+ factort
  +:+ suffix.

(** One turn of the loop over the input edges: the locals are [adesc] and
    [bdesc]. *)
Definition find_input (sdfg : ParentSDFG)
    (descs : option Array.t * option Array.t) (e : Edge.t)
  : result (option Array.t * option Array.t) :=
  let '(adesc, bdesc) := descs in
  if decide (Edge.dst_conn e = Some "_a") then
    match Edge.path_src e with
    | AccessNode data _ =>
        desc ← getitem (parent_arrays sdfg) data; Ok (Some desc, bdesc)
    | _ => Ok (adesc, bdesc)
    end
  else if decide (Edge.dst_conn e = Some "_b") then
    match Edge.path_src e with
    | AccessNode data _ =>
        desc ← getitem (parent_arrays sdfg) data; Ok (adesc, Some desc)
    | _ => Ok (adesc, bdesc)
    end
  else Ok (adesc, bdesc).

(** One turn of the loop over the output edges: the local is [cdesc]. *)
Definition find_output (sdfg : ParentSDFG) (cdesc : option Array.t)
    (e : Edge.t) : result (option Array.t) :=
  if decide (Edge.src_conn e = Some "_c") then
    match Edge.path_dst e with
    | AccessNode data _ =>
        desc ← getitem (parent_arrays sdfg) data; Ok (Some desc)
    | _ => Ok cdesc
    end
  else Ok cdesc.

(** "Find inputs and output": the three descriptors, each [None] when no
    edge resolved it. *)
Definition find_descs (state : ParentState) (sdfg : ParentSDFG)
  : result (option Array.t * option Array.t * option Array.t) :=
  '(adesc, bdesc) ← for_each (find_input sdfg) (in_edges state) (None, None);
  cdesc ← for_each (find_output sdfg) (out_edges state) None;
  Ok (adesc, bdesc, cdesc).

Definition call_template : list piece :=
  [Lit "cublas"; Field "func";
   Lit ("(__dace_cublas_handle," +:+ nl +:+ "                CUBLAS_OP_");
   Field "ta"; Lit ", CUBLAS_OP_"; Field "tb";
   Lit ("," +:+ nl +:+ "                "); Field "M"; Lit ", "; Field "N";
   Lit ", "; Field "K";
   Lit ("," +:+ nl +:+ "                "); Field "alpha";
   Lit ("," +:+ nl +:+ "                ("); Field "dtype"; Lit "*)";
   Field "x"; Lit ", "; Field "lda";
   Lit ("," +:+ nl +:+ "                ("); Field "dtype"; Lit "*)";
   Field "y"; Lit ", "; Field "ldb";
   Lit ("," +:+ nl +:+ "                "); Field "beta";
   Lit ("," +:+ nl +:+ "                ("); Field "dtype"; Lit "*)_c, ";
   Field "ldc"; Lit ");"].

Definition batched_template : list piece :=
  [Lit "cublas"; Field "func";
   Lit ("StridedBatched(__dace_cublas_handle," +:+ nl
        +:+ "                CUBLAS_OP_");
   Field "ta"; Lit ", CUBLAS_OP_"; Field "tb";
   Lit ("," +:+ nl +:+ "                "); Field "M"; Lit ", "; Field "N";
   Lit ", "; Field "K";
   Lit ("," +:+ nl +:+ "                "); Field "alpha";
   Lit ("," +:+ nl +:+ "                ("); Field "dtype"; Lit "*)";
   Field "x"; Lit ", "; Field "lda"; Lit ", "; Field "stride_a";
   Lit ("," +:+ nl +:+ "                ("); Field "dtype"; Lit "*)";
   Field "y"; Lit ", "; Field "ldb"; Lit ", "; Field "stride_b";
   Lit ("," +:+ nl +:+ "                "); Field "beta";
   Lit ("," +:+ nl +:+ "                ("); Field "dtype"; Lit "*)_c, ";
   Field "ldc"; Lit ", "; Field "stride_c";
   Lit ("," +:+ nl +:+ "                "); Field "BATCH"; Lit ");"].

(** [desc.storage not in [GPU_Global, CPU_Pinned]], negated. *)
Definition on_device (desc : Array.t) : bool :=
  bool_decide (Array.storage desc ∈ [GPU_Global; CPU_Pinned]).

(** The two descriptors declared for an operand: the copy of the outer
    array, not transient, and its transient mirror in GPU global memory. *)
Definition declare_operand (g : SDFG.t) (operand : string * Array.t)
  : result SDFG.t :=
  let '(name, desc) := operand in
  let dcopy :=
    Array.mk (Array.shape desc) (Array.strides desc) (Array.dtype desc)
      (Array.storage desc) false in
  g ← SDFG.add_datadesc name dcopy g;
  let dcopy_gpu :=
    Array.mk (Array.shape desc) (Array.strides desc) (Array.dtype desc)
      GPU_Global true in
  SDFG.add_datadesc (name +:+ "_gpu") dcopy_gpu g.

(** The nodes and edges of the staging state. *)
Definition stage (tasklet : Tasklet.t) (adesc bdesc cdesc : Array.t)
    (nstate : SDFGState.t) : SDFGState.t :=
  let '(a, nstate) := SDFGState.add_read "_a" nstate in
  let '(ga, nstate) := SDFGState.add_access "_a_gpu" nstate in
  let '(b, nstate) := SDFGState.add_read "_b" nstate in
  let '(gb, nstate) := SDFGState.add_access "_b_gpu" nstate in
  let '(c, nstate) := SDFGState.add_write "_c" nstate in
  let '(gc, nstate) := SDFGState.add_access "_c_gpu" nstate in
  let '(t, nstate) := SDFGState.add_node (TaskletNode tasklet) nstate in
  let nstate := SDFGState.add_nedge a ga (Memlet.from_array "_a" adesc) nstate in
  let nstate := SDFGState.add_nedge b gb (Memlet.from_array "_b" bdesc) nstate in
  let nstate :=
    SDFGState.add_edge ga None t (Some "_a")
      (Memlet.from_array "_a_gpu" adesc) nstate in
  let nstate :=
    SDFGState.add_edge gb None t (Some "_b")
      (Memlet.from_array "_b_gpu" bdesc) nstate in
  let nstate :=
    SDFGState.add_edge t (Some "_c") gc None
      (Memlet.from_array "_c_gpu" cdesc) nstate in
  SDFGState.add_nedge gc c (Memlet.from_array "_c" cdesc) nstate.

(** "If buffers are not on the GPU, copy them": the end of [expansion]. *)
Definition copy_to_gpu (tasklet : Tasklet.t) (adesc bdesc cdesc : Array.t)
  : result Expansion :=
  if negb (forallb on_device [adesc; bdesc; cdesc]) then
    let nsdfg := SDFG.new "nested_gemm" in
    nsdfg ← for_each declare_operand
              [("_a", adesc); ("_b", bdesc); ("_c", cdesc)] nsdfg;
    let '(nstate, nsdfg) := SDFG.add_state "state" nsdfg in
    '(_, nsdfg) ←
      SDFG.on_state nstate (λ st, ((), stage tasklet adesc bdesc cdesc st))
        nsdfg;
    Ok (NestedSDFG nsdfg)
  else Ok (BareTasklet tasklet).

Definition expansion (node : Gemm.t) (state : ParentState) (sdfg : ParentSDFG)
  : result Expansion :=
  _ ← Gemm.validate node sdfg state;
  '(func, cdtype, factort) ← select_routine node;
  let alpha := constant factort "Pone()" in
  let beta := constant factort "Zero()" in
  '(adesc, bdesc, cdesc) ← find_descs state sdfg;
  match adesc, bdesc, cdesc with
  | Some adesc, Some bdesc, Some cdesc =>
      opt ← _get_codegen_gemm_opts node state sdfg adesc bdesc cdesc alpha
              beta cdtype func;
      batch ← getitem opt "BATCH";
      call ← (if negb (truthy batch) then format_map call_template opt
              else format_map batched_template opt);
      let code := handle_setup_code node +:+ call in
      let tasklet :=
        Tasklet.mk (Gemm.name node) (Gemm.in_connectors node)
          (Gemm.out_connectors node) code CPP in
      copy_to_gpu tasklet adesc bdesc cdesc
  | _, _, _ => Raise unsupported_arrays
  end.
End WithCollaborators.
End ExpandGemmCuBLAS.

(** ** A sample of the collaborators

    The statements below hold for every instance of [Collaborators].  The
    instance [sample] serves to run the lowerings on concrete graphs. *)

Module Sample.
(** Modelled from the spec: "select a numeric-type-specific BLAS routine
    name", failing "for element types without a library mapping"
    ([blas_helpers.to_blastype]). *)
Definition to_blastype (t : nptype) : result string :=
  match t with
  | float16 => Ok "H"
  | float32 => Ok "S"
  | float64 => Ok "D"
  | complex64 => Ok "C"
  | complex128 => Ok "Z"
  | _ => Raise (TypeError "Type not supported in BLAS operations")
  end.

(** Modelled from the spec: "computes leading dimensions (lda,ldb,ldc) from
    strides; determines a transpose code per operand" and says whether the
    operands must be swapped ([blas_helpers.get_gemm_opts]); here for
    row-major operands only, which are swapped and not transposed. *)
Definition get_gemm_opts (a_strides b_strides c_strides : list Z)
  : result (gmap string pyval) :=
  lda ← index_back a_strides 2;
  ldb ← index_back b_strides 2;
  ldc ← index_back c_strides 2;
  Ok (<["swap" := VBool true]> (<["lda" := VSym lda]> (<["ldb" := VSym ldb]>
        (<["ldc" := VSym ldc]> (<["ta" := VStr "N"]>
           (<["tb" := VStr "N"]> ∅)))))).

(** The strides of the dimensions that [squeeze] keeps. *)
Definition kept_strides (s : Subset.t) (strides : list Z) : list Z :=
  match s with
  | Subset.Range sizes =>
      (filter (λ p, p.1 ≠ 1%Z) (zip sizes strides)).*2
  | Subset.Indices _ => []
  end.

(** The operand entering at connector [conn], if an edge carries it from
    an access node. *)
Fixpoint find_operand (conn : string) (edges : list Edge.t)
    (arrays : gmap string Array.t) : option MatmulInput :=
  match edges with
  | [] => None
  | e :: rest =>
      match find_operand conn rest arrays with
      | Some found => Some found
      | None =>
          if decide (Edge.dst_conn e = Some conn) then
            match Edge.path_src e with
            | AccessNode data _ =>
                desc ← arrays !! data;
                Some {| edge := e; outer_array := desc;
                        in_shape := squeezed_size (Edge.data e);
                        in_strides :=
                          kept_strides (Memlet.subset (Edge.data e))
                            (Array.strides desc) |}
            | _ => None
            end
          else None
      end
  end.

(** Modelled from the spec: the shape analysis "derives logical matrix
    shapes/strides from raw array descriptors" of the [_a], [_b] and
    optional [_c] inputs ([matmul._get_matmul_inputs]). *)
Definition _get_matmul_inputs (node : Gemm.t) (state : ParentState)
    (sdfg : ParentSDFG) : result MatmulInputs :=
  match find_operand "_a" (in_edges state) (parent_arrays sdfg),
        find_operand "_b" (in_edges state) (parent_arrays sdfg) with
  | Some a, Some b =>
      Ok {| input_a := a; input_b := b;
            c_inputs := find_operand "_c" (in_edges state) (parent_arrays sdfg) |}
  | _, _ =>
      Raise (ValueError "Matrix multiplication input connectors not found.")
  end.

(** Position of a type in numpy's promotion order, as far as the sample
    needs it. *)
Definition rank (t : nptype) : nat :=
  match t with
  | bool_ => 0 | int8 => 1 | uint8 => 2 | int16 => 3 | uint16 => 4
  | int32 => 5 | uint32 => 6 | int64 => 7 | uint64 => 8
  | float16 => 9 | float32 => 10 | float64 => 11
  | complex64 => 12 | complex128 => 13
  end.

Definition result_type (s t : nptype) : nptype :=
  if (rank s <? rank t)%nat then t else s.

Definition to_string (t : nptype) : string :=
  match t with
  | bool_ => "bool" | int8 => "int8" | int16 => "int16" | int32 => "int32"
  | int64 => "int64" | uint8 => "uint8" | uint16 => "uint16"
  | uint32 => "uint32" | uint64 => "uint64" | float16 => "float16"
  | float32 => "float32" | float64 => "float64"
  | complex64 => "complex64" | complex128 => "complex128"
  end.

Definition ctype (t : nptype) : string :=
  match t with
  | bool_ => "bool" | int8 => "char" | int16 => "short" | int32 => "int"
  | int64 => "long long" | uint8 => "unsigned char"
  | uint16 => "unsigned short" | uint32 => "unsigned int"
  | uint64 => "unsigned long long" | float16 => "dace::float16"
  | float32 => "float" | float64 => "double"
  | complex64 => "dace::complex64" | complex128 => "dace::complex128"
  end.
End Sample.

Definition sample : Collaborators := {|
  to_blastype := Sample.to_blastype;
  get_gemm_opts := Sample.get_gemm_opts;
  _get_matmul_inputs := Sample._get_matmul_inputs;
  sym2cpp := py_str;
  symstr := dec;
  handle_setup_code := λ _, "cublasSetStream(__dace_cublas_handle, __dace_current_stream);" +:+ nl;
  result_type := Sample.result_type;
  to_string := Sample.to_string;
  ctype := Sample.ctype
|}.

(** ** Vocabulary of the statements *)

(** The leading (batch) stride of a rank-3 operand; 0 for an operand of
    another rank or an absent one. *)
Definition leading_stride (shape strides : list Z) : Z :=
  if (length shape =? 3)%nat then default 0%Z (strides !! 0%nat) else 0%Z.

(** A rank-3 operand has leading dimension [d]; says nothing of another. *)
Definition leads_with (d : Z) (shape : list Z) : Prop :=
  length shape = 3%nat → shape !! 0%nat = Some d.

(** The operand entering at connector [conn] has squeezed size [sizes]. *)
Definition operand (conn : string) (state : ParentState) (sizes : list Z)
  : Prop :=
  ∃ e, e ∈ in_edges state ∧ Edge.dst_conn e = Some conn
       ∧ squeezed_size (Edge.data e) = sizes.

(** No input edge enters at connector [conn]. *)
Definition no_operand (conn : string) (state : ParentState) : Prop :=
  ∀ e, e ∈ in_edges state → Edge.dst_conn e ≠ Some conn.

(** The key whose value [d[k1], d[k2] = d[k2], d[k1]] moves to key [k]. *)
Definition swap_key (k1 k2 k : string) : string :=
  if decide (k = k1) then k2 else if decide (k = k2) then k1 else k.

(** The keys of the option map that the swap exchanges in pairs. *)
Definition swapped_keys : list string :=
  ["lda"; "ldb"; "x"; "y"; "ta"; "tb"; "M"; "N"].

(** The renaming of keys that the swap performs on the option map. *)
Definition swapped_key (k : string) : string :=
  swap_key "lda" "ldb"
    (swap_key "x" "y" (swap_key "ta" "tb" (swap_key "M" "N" k))).

(** The element types for which the MKL lowering has a routine. *)
Definition mkl_types : list nptype :=
  [float32; float64; complex64; complex128].

(** The array is in GPU global memory or in pinned host memory. *)
Definition device_resident (desc : Array.t) : Prop :=
  Array.storage desc ∈ [GPU_Global; CPU_Pinned].

(** State [st] has an edge from node [src], connector [src_conn], to node
    [dst], connector [dst_conn], that carries [memlet]. *)
Definition has_edge (st : SDFGState.t) (src : GraphNode)
    (src_conn : option string) (dst : GraphNode) (dst_conn : option string)
    (memlet : Memlet.t) : Prop :=
  ∃ e, e ∈ SDFGState.edges st
       ∧ SDFGState.nodes st !! StateEdge.src e = Some src
       ∧ SDFGState.nodes st !! StateEdge.dst e = Some dst
       ∧ StateEdge.src_conn e = src_conn
       ∧ StateEdge.dst_conn e = dst_conn
       ∧ StateEdge.data e = memlet.

(** [g] declares, under [name_gpu], a transient copy of [desc] in GPU
    global memory. *)
Definition gpu_mirror (g : SDFG.t) (name : string) (desc : Array.t) : Prop :=
  SDFG.arrays g !! (name +:+ "_gpu")
  = Some (Array.mk (Array.shape desc) (Array.strides desc) (Array.dtype desc)
            GPU_Global true).

(** [g] declares, under [name], a copy of [desc] that is not transient. *)
Definition host_copy (g : SDFG.t) (name : string) (desc : Array.t) : Prop :=
  SDFG.arrays g !! name
  = Some (Array.mk (Array.shape desc) (Array.strides desc) (Array.dtype desc)
            (Array.storage desc) false).

(** The leading dimensions of the rank-3 operands, in the order A, B, C. *)
Definition leading_dims (a_shape b_shape : list Z) (c_shape : option (list Z))
  : list Z :=
  (if (length a_shape =? 3)%nat then take 1 a_shape else [])
  ++ (if (length b_shape =? 3)%nat then take 1 b_shape else [])
  ++ (if (seq_len c_shape =? 3)%nat then take 1 (default [] c_shape) else []).

(** Some dimension of the list is not 0 and differs from the next one. *)
Fixpoint differ_in_turn (dims : list Z) : bool :=
  match dims with
  | d :: (d' :: _) as rest =>
      (negb (d =? 0)%Z && negb (d =? d')%Z) || differ_in_turn rest
  | _ => false
  end.

(** The keys that the option builder sets after the swap. *)
Definition late_keys : list string :=
  ["alpha"; "beta"; "dtype"; "func"; "stride_a"; "stride_b"; "stride_c";
   "BATCH"].

(** The option map just before [if opt['swap']:], from the map [base] of
    [get_gemm_opts]: the operands, the rendered dimensions and the
    rendered leading dimensions. *)
Definition before_swap `{Collaborators} (base : gmap string pyval)
    (m n k : Z) (lda ldb ldc : pyval) : gmap string pyval :=
  <["ldc" := VStr (sym2cpp ldc)]> (<["ldb" := VStr (sym2cpp ldb)]>
    (<["lda" := VStr (sym2cpp lda)]>
      (<["K" := VStr (sym2cpp (VSym k))]> (<["N" := VStr (sym2cpp (VSym n))]>
        (<["M" := VStr (sym2cpp (VSym m))]>
          (<["y" := VStr "_b"]> (<["x" := VStr "_a"]> base))))))).

(** The element types for which the cuBLAS lowering has a routine, each
    with its C type and the name of its constants. *)
Definition cublas_types : list (nptype * (string * string)) :=
  [(float16, ("__half", "Half")); (float32, ("float", "Float"));
   (float64, ("double", "Double")); (complex64, ("cuComplex", "Complex64"));
   (complex128, ("cuDoubleComplex", "Complex128"))].

(** The array of the parent SDFG that an edge reaches through an access
    node at the given end of its memlet path. *)
Definition reaches (sdfg : ParentSDFG) (end_node : GraphNode) (desc : Array.t)
  : Prop :=
  ∃ data access,
    end_node = AccessNode data access ∧ parent_arrays sdfg !! data = Some desc.

(** ** Sample graphs *)

Module Scenario.
(** An option map before the swap, and the batch strides with it. *)
Definition opt : gmap string pyval :=
  <["swap" := VBool true]> (<["lda" := VStr "3"]> (<["ldb" := VStr "4"]>
    (<["ldc" := VStr "4"]> (<["ta" := VStr "N"]> (<["tb" := VStr "T"]>
      (<["x" := VStr "_a"]> (<["y" := VStr "_b"]> (<["M" := VStr "5"]>
        (<["N" := VStr "4"]> (<["K" := VStr "3"]> ∅)))))))))).

Definition bopt : gmap string Z :=
  <["sa" := 15%Z]> (<["sb" := 12%Z]> (<["sc" := 20%Z]> (<["b" := 2%Z]> ∅))).

(** The same after the swap. *)
Definition opt_swapped : gmap string pyval :=
  <["swap" := VBool true]> (<["lda" := VStr "4"]> (<["ldb" := VStr "3"]>
    (<["ldc" := VStr "4"]> (<["ta" := VStr "T"]> (<["tb" := VStr "N"]>
      (<["x" := VStr "_b"]> (<["y" := VStr "_a"]> (<["M" := VStr "4"]>
        (<["N" := VStr "5"]> (<["K" := VStr "3"]> ∅)))))))))).

Definition bopt_swapped : gmap string Z :=
  <["sa" := 12%Z]> (<["sb" := 15%Z]> (<["sc" := 20%Z]> (<["b" := 2%Z]> ∅))).

(** An integer constant such as [alpha=1] or [beta=0]. *)
Definition int (n : Z) : Scalar :=
  {| py_type := builtin_int;
     eq_one := bool_decide (n = 1%Z);
     eq_zero := bool_decide (n = 0%Z);
     text := dec n;
     real := dec n +:+ ".0";
     imag := "0.0" |}.

(** A row-major [float32] array. *)
Definition array (shape : list Z) (storage : StorageType) : Array.t :=
  Array.mk shape (row_major_strides shape) float32 storage false.

(** An edge from the access node of [data] into connector [conn]. *)
Definition input (conn data : string) (sizes : list Z) : Edge.t :=
  Edge.mk None (Some conn) (Memlet.mk data (Subset.Range sizes) None)
    (AccessNode data ReadOnly) (ScopeNode "gemm").

(** An edge from connector [conn] to the access node of [data]. *)
Definition output (conn data : string) (sizes : list Z) : Edge.t :=
  Edge.mk (Some conn) None (Memlet.mk data (Subset.Range sizes) None)
    (ScopeNode "gemm") (AccessNode data WriteOnly).

(** Arrays [A], [B], [C] and [Y] of the given shapes. *)
Definition arrays (a b c y : list Z) (storage : StorageType) : ParentSDFG :=
  {| parent_name := "top";
     parent_arrays :=
       <["A" := array a storage]> (<["B" := array b storage]>
         (<["C" := array c storage]> (<["Y" := array y storage]> ∅))) |}.


(** The node reads [A] and [B] and writes [Y] through connector [out]. *)
Definition two_inputs (a b y : list Z) (out : string) : ParentState :=
  {| in_edges := [input "_a" "A" a; input "_b" "B" b];
     out_edges := [output out "Y" y] |}.

(** The node reads [A], [B] and [C] and writes [Y] through [out]. *)
Definition three_inputs (a b c y : list Z) (out : string) : ParentState :=
  {| in_edges := [input "_a" "A" a; input "_b" "B" b; input "_c" "C" c];
     out_edges := [output out "Y" y] |}.

Definition gemm (transA transB : bool) (alpha beta : Scalar) : Gemm.t :=
  Gemm.__init__ "gemm" (Some float32) transA transB alpha beta.
End Scenario.

(** ** Proof tactics *)

Ltac by_rank l :=
  destruct l as [|? [|? [|? [|? ?]]]]; simpl in *; try lia.

Ltac run_checks :=
  repeat (match goal with
          | |- context [index ?l ?i] => destruct (index l i) eqn:?
          | |- context [if ?c then _ else _] => destruct c eqn:?
          end; simpl).

(** Settles a goal about key [k] when [k] is [name], by computation. *)
Ltac known_key k name :=
  destruct (decide (k = name)) as [-> | ?]; [reflexivity |].

(** Replaces the left-hand side of an equation by its value. *)
Ltac compute_lhs :=
  match goal with
  | |- ?l = _ => let v := eval vm_compute in l in change l with v
  end.

(** Shows [has_edge] by the position of the edge in the state. *)
Ltac edge_at i :=
  eexists; split; [apply (list_elem_of_lookup_2 _ i); reflexivity |];
  repeat split; reflexivity.

(** * Properties *)

(** ** The result monad *)

Lemma bind_Ok {A B} (m : result A) (f : A → result B) b :
  m ≫= f = Ok b ↔ ∃ a, m = Ok a ∧ f a = Ok b.
Proof.
  destruct m as [a|e]; simpl; split.
  - intros Hf. by exists a.
  - by intros (a' & [= <-] & Hf).
  - discriminate.
  - by intros (a' & [=] & _).
Qed.

Lemma bind_Raise {A B} (m : result A) (f : A → result B) e :
  m = Raise e → m ≫= f = Raise e.
Proof. by intros ->. Qed.

Lemma getitem_Ok {V} (d : gmap string V) k v :
  getitem d k = Ok v ↔ d !! k = Some v.
Proof. unfold getitem. destruct (d !! k); split; congruence. Qed.

Lemma index_Ok {A} (l : list A) i x : index l i = Ok x ↔ l !! i = Some x.
Proof. unfold index. destruct (l !! i); split; congruence. Qed.

(** ** Batch detection *)

Lemma batch_none_iff a_shape a_strides b_shape b_strides c_shape c_strides :
  (length a_shape ≤ 3)%nat → (length b_shape ≤ 3)%nat →
  (seq_len c_shape ≤ 3)%nat →
  _get_batchmm_opts a_shape a_strides b_shape b_strides c_shape c_strides
    = Ok ∅
  ↔ (length a_shape ≤ 2)%nat ∧ (length b_shape ≤ 2)%nat.
Proof.
  intros Ha Hb Hc. unfold _get_batchmm_opts.
  destruct c_shape as [c_shape|]; [by_rank c_shape|];
    by_rank a_shape; by_rank b_shape.
  all: try (split; [intros _; lia | done]).
  all: split; [|lia].
  all: run_checks; try discriminate.
  all: intros [= Hr]; by apply insert_non_empty in Hr.
Qed.

Lemma batch_agree a_shape a_strides b_shape b_strides c_shape c_strides d :
  (length a_shape ≤ 3)%nat → (length b_shape ≤ 3)%nat →
  (seq_len c_shape ≤ 3)%nat →
  length a_strides = length a_shape → length b_strides = length b_shape →
  length c_strides = seq_len c_shape →
  length a_shape = 3%nat ∨ length b_shape = 3%nat →
  leads_with d a_shape → leads_with d b_shape →
  leads_with d (default [] c_shape) →
  _get_batchmm_opts a_shape a_strides b_shape b_strides c_shape c_strides =
    Ok (<["sa" := leading_stride a_shape a_strides]>
         (<["sb" := leading_stride b_shape b_strides]>
           (<["sc" := leading_stride (default [] c_shape) c_strides]>
             (<["b" := d]> ∅)))).
Proof.
  intros Ha Hb Hc Hsa Hsb Hsc H3 Hda Hdb Hdc.
  unfold _get_batchmm_opts, leads_with, leading_stride in *.
  destruct c_shape as [c_shape|]; [by_rank c_shape|];
    by_rank a_shape; by_rank b_shape.
  all: by_rank a_strides; by_rank b_strides; by_rank c_strides.
  all: repeat match goal with
              | H : ?x = ?x → _ |- _ => specialize (H eq_refl)
              end.
  all: simplify_eq.
  all: unfold batch_differs;
    repeat (progress (rewrite ?Z.eqb_refl, ?andb_false_r; simpl)); done.
Qed.

(** C4, as the code has it.  For operands of rank at most 3 whose stride
    sequences are as long as their shapes, batch detection returns "no
    batch" (the empty dictionary) exactly when A and B both have rank at
    most 2, whatever the rank of C; and when A or B has rank 3 and every
    rank-3 operand has leading dimension [d], it returns batch size [d]
    with the leading stride of each rank-3 operand and stride 0 for an
    operand of rank 2 or an absent one. *)
Theorem batch_detection_by_rank
    a_shape a_strides b_shape b_strides c_shape c_strides :
  (length a_shape ≤ 3)%nat → (length b_shape ≤ 3)%nat →
  (seq_len c_shape ≤ 3)%nat →
  length a_strides = length a_shape → length b_strides = length b_shape →
  length c_strides = seq_len c_shape →
  (_get_batchmm_opts a_shape a_strides b_shape b_strides c_shape c_strides
     = Ok ∅
   ↔ (length a_shape ≤ 2)%nat ∧ (length b_shape ≤ 2)%nat)
  ∧ (∀ d,
       length a_shape = 3%nat ∨ length b_shape = 3%nat →
       leads_with d a_shape → leads_with d b_shape →
       leads_with d (default [] c_shape) →
       _get_batchmm_opts a_shape a_strides b_shape b_strides c_shape c_strides
       = Ok (<["sa" := leading_stride a_shape a_strides]>
              (<["sb" := leading_stride b_shape b_strides]>
                (<["sc" := leading_stride (default [] c_shape) c_strides]>
                  (<["b" := d]> ∅))))).
Proof.
  intros Ha Hb Hc Hsa Hsb Hsc. split.
  - by apply batch_none_iff.
  - intros d. by apply batch_agree.
Qed.

(** The statement above at a batch of two 5x3 by 3x4 products with a
    batched output. *)
Lemma batch_detection_by_rank_witness :
  (_get_batchmm_opts [2; 5; 3]%Z [15; 3; 1]%Z [2; 3; 4]%Z [12; 4; 1]%Z
     (Some [2; 5; 4]%Z) [20; 4; 1]%Z = Ok ∅
   ↔ (length [2; 5; 3]%Z ≤ 2)%nat ∧ (length [2; 3; 4]%Z ≤ 2)%nat)
  ∧ (∀ d,
       length [2; 5; 3]%Z = 3%nat ∨ length [2; 3; 4]%Z = 3%nat →
       leads_with d [2; 5; 3]%Z → leads_with d [2; 3; 4]%Z →
       leads_with d (default [] (Some [2; 5; 4]%Z)) →
       _get_batchmm_opts [2; 5; 3]%Z [15; 3; 1]%Z [2; 3; 4]%Z [12; 4; 1]%Z
         (Some [2; 5; 4]%Z) [20; 4; 1]%Z
       = Ok (<["sa" := leading_stride [2; 5; 3]%Z [15; 3; 1]%Z]>
              (<["sb" := leading_stride [2; 3; 4]%Z [12; 4; 1]%Z]>
                (<["sc" := leading_stride (default [] (Some [2; 5; 4]%Z))
                             [20; 4; 1]%Z]>
                  (<["b" := d]> ∅))))).
Proof.
  apply (batch_detection_by_rank [2; 5; 3]%Z [15; 3; 1]%Z [2; 3; 4]%Z
           [12; 4; 1]%Z (Some [2; 5; 4]%Z) [20; 4; 1]%Z);
    simpl; first [lia | reflexivity].
Defined.

(** C4 as stated fails: with A and B of rank 2 and C of rank 3, not every
    operand has rank at most 2, and yet "no batch" is returned; the
    leading dimension 5 of C is not taken as the batch size. *)
Lemma batch_detection_rank3_c_counterexample :
  _get_batchmm_opts [2; 3]%Z [3; 1]%Z [3; 4]%Z [4; 1]%Z (Some [5; 2; 4]%Z)
    [8; 4; 1]%Z = Ok ∅
  ∧ seq_len (Some [5; 2; 4]%Z) = 3%nat.
Proof. split; reflexivity. Qed.

(** C5, the failing input.  A leading dimension 0 followed by a leading
    dimension 5 is taken without an error and 5 is returned as the batch
    size, while the same two operands in the other order raise. *)
Theorem batch_mismatch_after_zero_not_raised :
  _get_batchmm_opts [0; 2; 2]%Z [4; 2; 1]%Z [5; 2; 2]%Z [4; 2; 1]%Z None []
    = Ok (<["sa" := 4%Z]> (<["sb" := 4%Z]> (<["sc" := 0%Z]>
            (<["b" := 5%Z]> ∅))))
  ∧ _get_batchmm_opts [5; 2; 2]%Z [4; 2; 1]%Z [0; 2; 2]%Z [4; 2; 1]%Z None []
    = Raise batch_mismatch.
Proof. split; reflexivity. Qed.

(** ** Validation *)

(** A validation that succeeds has bound all three of [size0], [size1] and
    [size2] in its loop. *)
Lemma validate_Ok_sizes self sdfg state :
  Gemm.validate self sdfg state = Ok () →
  ∃ s0 s1 s2,
    foldl Gemm.bind_sizes (None, None, None) (in_edges state)
    = (Some s0, Some s1, Some s2).
Proof.
  unfold Gemm.validate.
  destruct (foldl _ _ _) as [[size0 size1] size2].
  destruct size0, size1, size2; eauto.
  all: intros Hv; exfalso; revert Hv.
  all: run_checks; discriminate.
Qed.

Lemma two_edges_leave_a_local (e1 e2 : Edge.t) s0 s1 s2 :
  foldl Gemm.bind_sizes (None, None, None) [e1; e2]
  ≠ (Some s0, Some s1, Some s2).
Proof. simpl. unfold Gemm.bind_sizes. repeat case_decide; congruence. Qed.

(** X1.  With exactly two input edges validation raises, whatever they
    carry. *)
Lemma validate_two_inputs_raises self sdfg state :
  length (in_edges state) = 2%nat →
  ∃ e, Gemm.validate self sdfg state = Raise e.
Proof.
  intros Hlen.
  destruct (Gemm.validate self sdfg state) as [[]|e] eqn:Hv; [|by eauto].
  apply validate_Ok_sizes in Hv as (s0 & s1 & s2 & Hs).
  destruct (in_edges state) as [|e1 [|e2 [|]]]; try done.
  by apply two_edges_leave_a_local in Hs.
Qed.

(** X5.  A number of input edges other than 2 and 3 raises the error on
    the inputs; with 2 or 3 input edges, a number of output edges other
    than 1 raises the error on the output. *)
Lemma validate_edge_counts self sdfg state :
  (length (in_edges state) ∉ [2; 3]%nat →
   Gemm.validate self sdfg state
   = Raise (ValueError "Expected 2 or 3 inputs to gemm"))
  ∧ (length (in_edges state) ∈ [2; 3]%nat →
     length (out_edges state) ≠ 1%nat →
     Gemm.validate self sdfg state
     = Raise (ValueError
                "Expected exactly one output from matrix-matrix product")).
Proof.
  unfold Gemm.validate. split.
  - intros Hin. by rewrite bool_decide_eq_false_2.
  - intros Hin Hout. rewrite bool_decide_eq_true_2 by done. simpl.
    destruct (foldl _ _ _) as [[size0 size1] size2].
    by apply Nat.eqb_neq in Hout as ->.
Qed.

(** The node's own attributes, the transpose flags among them, have no
    part in validation. *)
Lemma validate_ignores_node self self' sdfg state :
  Gemm.validate self sdfg state = Gemm.validate self' sdfg state.
Proof. reflexivity. Qed.

(** C1, where the code leaves the claim.  With exactly two input edges,
    [_a] of squeezed size [(m, k)] and [_b] of squeezed size [(k, n)], no
    [_c], and one output edge of squeezed size [(m, n)], validation does
    not succeed: it raises [TypeError] at [len(size2)], [size2] still being
    [None]. *)
Theorem validate_two_inputs_type_error self sdfg state out m k n :
  length (in_edges state) = 2%nat →
  operand "_a" state [m; k] → operand "_b" state [k; n] →
  no_operand "_c" state →
  out_edges state = [out] → squeezed_size (Edge.data out) = [m; n] →
  Gemm.validate self sdfg state = Raise none_has_no_len.
Proof.
  intros Hlen (ea & Hea & Ha & Hsa) (eb & Heb & Hb & Hsb) Hc Hout Hso.
  unfold Gemm.validate, no_operand in *. rewrite Hout.
  destruct (in_edges state) as [|e1 [|e2 [|]]]; try done.
  assert (Edge.dst_conn e1 ≠ Some "_c") as Hc1
    by (apply Hc; rewrite !elem_of_cons; tauto).
  assert (Edge.dst_conn e2 ≠ Some "_c") as Hc2
    by (apply Hc; rewrite !elem_of_cons; tauto).
  assert (ea = e1 ∨ ea = e2) as Hea'
    by (rewrite !elem_of_cons, elem_of_nil in Hea; tauto).
  assert (eb = e1 ∨ eb = e2) as Heb'
    by (rewrite !elem_of_cons, elem_of_nil in Heb; tauto).
  simpl. unfold Gemm.bind_sizes.
  destruct Hea' as [-> | ->], Heb' as [-> | ->]; try congruence.
  all: repeat case_decide; try congruence.
  all: rewrite ?Hsa, ?Hsb; simpl; rewrite ?Z.eqb_refl; simpl; done.
Qed.

(** The statement above at A of 2x3, B of 3x4 and an output of 2x4. *)
Lemma validate_two_inputs_type_error_witness :
  Gemm.validate (Scenario.gemm false false (Scenario.int 1) (Scenario.int 0))
    (Scenario.arrays [2; 3]%Z [3; 4]%Z [2; 4]%Z [2; 4]%Z Default)
    (Scenario.two_inputs [2; 3]%Z [3; 4]%Z [2; 4]%Z "_y")
  = Raise none_has_no_len.
Proof.
  apply (validate_two_inputs_type_error _ _ _
           (Scenario.output "_y" "Y" [2; 4]%Z) 2%Z 3%Z 4%Z).
  - reflexivity.
  - exists (Scenario.input "_a" "A" [2; 3]%Z).
    split; [apply list_elem_of_here | split; reflexivity].
  - exists (Scenario.input "_b" "B" [3; 4]%Z).
    split; [apply list_elem_of_further, list_elem_of_here
           | split; reflexivity].
  - intros e He.
    apply elem_of_cons in He as [-> | He]; [discriminate |].
    apply list_elem_of_singleton in He as ->. discriminate.
  - reflexivity.
  - reflexivity.
Defined.

(** C3, where the code leaves the claim.  Validation reads no attribute
    of the node, so the transpose flags have no part in it: the node with
    a flag negated is validated as the node itself.  With [transA] set, a
    [_c] input of the output's size and B of 3x4: for A of 3x2, which
    transposed is the 2x3 factor of a 2x4 product, validation raises the
    k-dimension error; for A of 2x3, which transposed does not fit B,
    validation succeeds. *)
Theorem transA_validation_ignores_flag :
  Gemm.validate (Scenario.gemm true false (Scenario.int 1) (Scenario.int 0))
    (Scenario.arrays [3; 2]%Z [3; 4]%Z [2; 4]%Z [2; 4]%Z Default)
    (Scenario.three_inputs [3; 2]%Z [3; 4]%Z [2; 4]%Z [2; 4]%Z "_y")
  = Raise (ValueError
             "Inputs to matrix-matrix product must agree in the k-dimension")
  ∧ Gemm.validate (Scenario.gemm true false (Scenario.int 1) (Scenario.int 0))
      (Scenario.arrays [2; 3]%Z [3; 4]%Z [2; 4]%Z [2; 4]%Z Default)
      (Scenario.three_inputs [2; 3]%Z [3; 4]%Z [2; 4]%Z [2; 4]%Z "_y")
    = Ok ()
  ∧ ∀ self sdfg state,
      Gemm.validate self sdfg state
      = Gemm.validate
          (Gemm.mk (Gemm.name self) (Gemm.dtype self)
             (negb (Gemm.transA self)) (negb (Gemm.transB self))
             (Gemm.alpha self) (Gemm.beta self) (Gemm.in_connectors self)
             (Gemm.out_connectors self)) sdfg state.
Proof.
  split; [vm_compute; reflexivity|]. split; [vm_compute; reflexivity|].
  intros self sdfg state. apply validate_ignores_node.
Qed.

(** ** Scalar rendering *)

(** C2, where the code leaves the claim.  The test for a complex type
    evaluates [np.complex64], and the module binds no [np]: the test raises
    [NameError] for every type, and so does the rendering for every scalar
    and every element type.  No scalar is accepted and rendered, not a
    non-complex scalar on a non-complex element type either, and the error
    of an incompatible scalar is never the one raised. *)
Theorem cast_to_dtype_str_name_error `{Collaborators} :
  (∀ dtype, _is_complex dtype = Raise np_unbound)
  ∧ (∀ value dtype, _cast_to_dtype_str value dtype = Raise np_unbound)
  ∧ np_unbound ≠ complex_scalar_error.
Proof.
  split; [intros dtype; reflexivity|].
  split; [intros value dtype; reflexivity | discriminate].
Qed.

(** ** Swap normalization *)

Lemma swap_key_involutive k1 k2 k : swap_key k1 k2 (swap_key k1 k2 k) = k.
Proof. unfold swap_key. repeat case_decide; congruence. Qed.

Lemma swap_key_other k1 k2 k : k ≠ k1 → k ≠ k2 → swap_key k1 k2 k = k.
Proof. intros. unfold swap_key. by rewrite !decide_False. Qed.

Lemma swapped_key_other k : k ∉ swapped_keys → swapped_key k = k.
Proof.
  unfold swapped_keys, swapped_key. rewrite !not_elem_of_cons.
  intros (? & ? & ? & ? & ? & ? & ? & ? & _).
  by rewrite (swap_key_other "M" "N"), (swap_key_other "ta" "tb"),
    (swap_key_other "x" "y"), (swap_key_other "lda" "ldb").
Qed.

Lemma swapped_key_involutive k : swapped_key (swapped_key k) = k.
Proof.
  known_key k "lda"; known_key k "ldb"; known_key k "x"; known_key k "y".
  known_key k "ta"; known_key k "tb"; known_key k "M"; known_key k "N".
  assert (k ∉ swapped_keys) as Hk
    by (unfold swapped_keys; rewrite !not_elem_of_cons;
        repeat split; try done; apply not_elem_of_nil).
  by rewrite !(swapped_key_other k Hk).
Qed.

Lemma swap_items_Ok {V} k1 k2 (d d' : gmap string V) :
  swap_items k1 k2 d = Ok d' ↔
  ∃ v1 v2, d !! k1 = Some v1 ∧ d !! k2 = Some v2
           ∧ d' = <[k2 := v1]> (<[k1 := v2]> d).
Proof.
  unfold swap_items, getitem.
  destruct (d !! k2) as [v2|], (d !! k1) as [v1|]; simpl; split;
    try discriminate; try (intros (? & ? & ? & ? & ?); discriminate).
  - intros [= <-]. eauto.
  - intros (? & ? & [= <-] & [= <-] & ->). done.
Qed.

Lemma swap_items_lookup {V} k1 k2 (d d' : gmap string V) k :
  swap_items k1 k2 d = Ok d' → d' !! k = d !! swap_key k1 k2 k.
Proof.
  intros (v1 & v2 & H1 & H2 & ->)%swap_items_Ok. unfold swap_key.
  rewrite !lookup_insert. repeat case_decide; congruence.
Qed.

Lemma swap_items_defined {V} k1 k2 (d : gmap string V) :
  is_Some (d !! k1) → is_Some (d !! k2) → ∃ d', swap_items k1 k2 d = Ok d'.
Proof. intros [v1 H1] [v2 H2]. eexists. apply swap_items_Ok. eauto. Qed.

Lemma swap_items_dom {V} k1 k2 (d d' : gmap string V) k :
  swap_items k1 k2 d = Ok d' → is_Some (d' !! k) ↔ is_Some (d !! k).
Proof.
  intros Hs. rewrite (swap_items_lookup _ _ _ _ _ Hs).
  apply swap_items_Ok in Hs as (v1 & v2 & H1 & H2 & _).
  unfold swap_key. repeat case_decide; subst; rewrite ?H1, ?H2; naive_solver.
Qed.

Lemma swap_items_twice {V} k1 k2 (d d' : gmap string V) :
  swap_items k1 k2 d = Ok d' → swap_items k1 k2 d' = Ok d.
Proof.
  intros Hs.
  pose proof Hs as (v1 & v2 & H1 & H2 & _)%swap_items_Ok.
  destruct (swap_items_defined k1 k2 d') as [d'' Hd''];
    [apply (swap_items_dom _ _ _ _ _ Hs); eauto..|].
  rewrite Hd''. f_equal. apply map_eq. intros k.
  rewrite (swap_items_lookup _ _ _ _ _ Hd''), (swap_items_lookup _ _ _ _ _ Hs).
  by rewrite swap_key_involutive.
Qed.

Lemma dict_truthy_insert {V} `{EqDecision V} k v (d : gmap string V) :
  dict_truthy (<[k := v]> d) = true.
Proof.
  unfold dict_truthy. rewrite bool_decide_eq_false_2; [done|].
  apply insert_non_empty.
Qed.

Lemma swap_batch_strides_twice (bopt bopt' : gmap string Z) :
  (if dict_truthy bopt then swap_items "sa" "sb" bopt else Ok bopt)
  = Ok bopt' →
  (if dict_truthy bopt' then swap_items "sa" "sb" bopt' else Ok bopt')
  = Ok bopt.
Proof.
  destruct (dict_truthy bopt) eqn:Ht.
  - intros Hs. pose proof Hs as (v1 & v2 & _ & _ & Heq)%swap_items_Ok.
    rewrite Heq at 1. rewrite dict_truthy_insert. by apply swap_items_twice.
  - intros [= <-]. by rewrite Ht.
Qed.

(** The swap moves the value under [swapped_key k] to [k]. *)
Lemma swap_operands_lookup opt bopt opt' bopt' k :
  swap_operands (opt, bopt) = Ok (opt', bopt') →
  opt' !! k = opt !! swapped_key k.
Proof.
  unfold swap_operands. intros Hs.
  apply bind_Ok in Hs as (b1 & _ & Hs).
  apply bind_Ok in Hs as (o1 & H1 & Hs).
  apply bind_Ok in Hs as (o2 & H2 & Hs).
  apply bind_Ok in Hs as (o3 & H3 & Hs).
  apply bind_Ok in Hs as (o4 & H4 & Hs).
  injection Hs as <- <-.
  by rewrite (swap_items_lookup _ _ _ _ _ H4),
    (swap_items_lookup _ _ _ _ _ H3), (swap_items_lookup _ _ _ _ _ H2),
    (swap_items_lookup _ _ _ _ _ H1).
Qed.

Lemma swap_operands_keys opt bopt opt' bopt' :
  swap_operands (opt, bopt) = Ok (opt', bopt') →
  Forall (λ k, is_Some (opt' !! k)) swapped_keys.
Proof.
  unfold swap_operands. intros Hs.
  apply bind_Ok in Hs as (b1 & _ & Hs).
  apply bind_Ok in Hs as (o1 & H1 & Hs).
  apply bind_Ok in Hs as (o2 & H2 & Hs).
  apply bind_Ok in Hs as (o3 & H3 & Hs).
  apply bind_Ok in Hs as (o4 & H4 & Hs).
  injection Hs as <- <-.
  pose proof H1 as (? & ? & ? & ? & _)%swap_items_Ok.
  pose proof H2 as (? & ? & ? & ? & _)%swap_items_Ok.
  pose proof H3 as (? & ? & ? & ? & _)%swap_items_Ok.
  pose proof H4 as (? & ? & ? & ? & _)%swap_items_Ok.
  repeat apply Forall_cons_2; [..|apply Forall_nil_2].
  all: apply (swap_items_dom _ _ _ _ _ H4); try by eauto.
  all: apply (swap_items_dom _ _ _ _ _ H3); try by eauto.
  all: apply (swap_items_dom _ _ _ _ _ H2); try by eauto.
  all: apply (swap_items_dom _ _ _ _ _ H1); by eauto.
Qed.

Lemma swap_operands_defined opt bopt bopt' :
  Forall (λ k, is_Some (opt !! k)) swapped_keys →
  (if dict_truthy bopt then swap_items "sa" "sb" bopt else Ok bopt)
  = Ok bopt' →
  ∃ opt', swap_operands (opt, bopt) = Ok (opt', bopt').
Proof.
  intros Hk Hb. unfold swap_operands, swapped_keys in *. rewrite Hb. simpl.
  repeat match goal with
         | H : Forall _ (_ :: _) |- _ =>
             let K := fresh "K" in apply Forall_cons in H as [K H]
         end.
  destruct (swap_items_defined "lda" "ldb" opt) as [o1 S1]; [done..|].
  destruct (swap_items_defined "x" "y" o1) as [o2 S2];
    [by apply (swap_items_dom _ _ _ _ _ S1)..|].
  destruct (swap_items_defined "ta" "tb" o2) as [o3 S3];
    [by apply (swap_items_dom _ _ _ _ _ S2), (swap_items_dom _ _ _ _ _ S1)..|].
  destruct (swap_items_defined "M" "N" o3) as [o4 S4];
    [by apply (swap_items_dom _ _ _ _ _ S3), (swap_items_dom _ _ _ _ _ S2),
       (swap_items_dom _ _ _ _ _ S1)..|].
  exists o4. rewrite S1; simpl. rewrite S2; simpl. rewrite S3; simpl.
  by rewrite S4.
Qed.

(** C8.  The swap applied in option building is self-inverse: whenever
    it maps the option map [opt] and the batch dictionary [bopt] to [opt']
    and [bopt'], applying it to these returns [opt] and [bopt].  So every
    key has its original value again, in particular [M], [N], [ta], [tb],
    [lda], [ldb], [x], [y] and, with a batch, [sa] and [sb]. *)
Theorem swap_operands_involutive opt bopt opt' bopt' :
  swap_operands (opt, bopt) = Ok (opt', bopt') →
  swap_operands (opt', bopt') = Ok (opt, bopt).
Proof.
  intros Hs.
  assert ((if dict_truthy bopt' then swap_items "sa" "sb" bopt' else Ok bopt')
          = Ok bopt) as Hb.
  { apply swap_batch_strides_twice. unfold swap_operands in Hs.
    apply bind_Ok in Hs as (b1 & Hb & Hs).
    repeat (apply bind_Ok in Hs as (? & _ & Hs)). by injection Hs as _ ->. }
  destruct (swap_operands_defined opt' bopt' bopt) as [opt'' Hs'];
    [by eapply swap_operands_keys | done |].
  rewrite Hs'. do 2 f_equal. apply map_eq. intros k.
  rewrite (swap_operands_lookup _ _ _ _ _ Hs'),
    (swap_operands_lookup _ _ _ _ _ Hs).
  by rewrite swapped_key_involutive.
Qed.

(** The statement above at an option map with a batch of two. *)
Lemma swap_operands_involutive_witness :
  swap_operands (Scenario.opt_swapped, Scenario.bopt_swapped)
  = Ok (Scenario.opt, Scenario.bopt).
Proof.
  apply (swap_operands_involutive Scenario.opt Scenario.bopt).
  vm_compute. reflexivity.
Defined.

(** What the swap exchanges, read off the sample: the values of [M] and
    [N], of the transpose codes, of the leading dimensions and of the
    batch strides. *)
Lemma swap_operands_sample :
  swap_operands (Scenario.opt, Scenario.bopt)
  = Ok (Scenario.opt_swapped, Scenario.bopt_swapped).
Proof. vm_compute. reflexivity. Qed.

(** ** The MKL lowering *)

(** An error of [to_blastype] is the error of the lowering. *)
Lemma mkl_blastype_error `{Collaborators} node state sdfg t e :
  Gemm.dtype node = Some t → Gemm.validate node sdfg state = Ok () →
  to_blastype t = Raise e →
  ExpandGemmMKL.expansion node state sdfg = Raise e.
Proof.
  intros Hd Hv Hb.
  unfold ExpandGemmMKL.expansion, ExpandGemmMKL.select_routine, dtype_type.
  rewrite Hv, Hd. simpl. by rewrite Hb.
Qed.

(** C9.  On a node that passed validation and has element type [t]:
    when [t] is none of [float32], [float64], [complex64], [complex128]
    the lowering raises, with the unsupported-type error of the lowering
    or with the error of [to_blastype] when that has no letter for [t];
    and when [to_blastype] gives [letter], the type dispatch raises the
    unsupported-type error exactly for the types outside the four, while
    for each of the four the lowering goes on with the routine name
    [letter.lower() + 'gemm'] and the constants of that type. *)
Theorem mkl_type_dispatch `{Collaborators} node state sdfg t :
  Gemm.dtype node = Some t → Gemm.validate node sdfg state = Ok () →
  (t ∉ mkl_types →
   ∃ e, ExpandGemmMKL.expansion node state sdfg = Raise e
        ∧ (e = ExpandGemmMKL.unsupported_type t ∨ to_blastype t = Raise e))
  ∧ (∀ letter, to_blastype t = Ok letter →
       let func := lower letter +:+ "gemm" in
       (t ∉ mkl_types ↔
        ExpandGemmMKL.select_routine node
        = Raise (ExpandGemmMKL.unsupported_type t))
       ∧ (t = float32 →
          ExpandGemmMKL.expansion node state sdfg
          = ExpandGemmMKL.emit node state sdfg func "1.0f" "0.0f")
       ∧ (t = float64 →
          ExpandGemmMKL.expansion node state sdfg
          = ExpandGemmMKL.emit node state sdfg func "1.0" "0.0")
       ∧ (t = complex64 →
          ExpandGemmMKL.expansion node state sdfg
          = ExpandGemmMKL.emit node state sdfg func
              "dace::blas::BlasConstants::Get().Complex64Pone()"
              "dace::blas::BlasConstants::Get().Complex64Zero()")
       ∧ (t = complex128 →
          ExpandGemmMKL.expansion node state sdfg
          = ExpandGemmMKL.emit node state sdfg func
              "dace::blas::BlasConstants::Get().Complex128Pone()"
              "dace::blas::BlasConstants::Get().Complex128Zero()")).
Proof.
  intros Hd Hv.
  unfold ExpandGemmMKL.expansion, ExpandGemmMKL.select_routine, dtype_type,
    mkl_types.
  rewrite Hv, Hd. simpl. split.
  - intros Ht. destruct (to_blastype t) as [letter|e]; simpl; [|by eauto].
    exists (ExpandGemmMKL.unsupported_type t). split; [|by left].
    rewrite !not_elem_of_cons in Ht. destruct Ht as (? & ? & ? & ? & _).
    by rewrite !decide_False.
  - intros letter ->. simpl. rewrite !not_elem_of_cons.
    split; [|repeat split; intros ->; reflexivity].
    split.
    + intros (? & ? & ? & ? & _). by rewrite !decide_False.
    + intros Hs. repeat case_decide; try discriminate.
      repeat split; try done. apply not_elem_of_nil.
Qed.

(** The statement above at a [float32] node with three inputs: the
    routine is [sgemm] with the constants [1.0f] and [0.0f]. *)
Lemma mkl_type_dispatch_witness :
  @ExpandGemmMKL.expansion sample
    (Scenario.gemm false false (Scenario.int 1) (Scenario.int 0))
    (Scenario.three_inputs [2; 3]%Z [3; 4]%Z [2; 4]%Z [2; 4]%Z "_y")
    (Scenario.arrays [2; 3]%Z [3; 4]%Z [2; 4]%Z [2; 4]%Z Default)
  = @ExpandGemmMKL.emit sample
      (Scenario.gemm false false (Scenario.int 1) (Scenario.int 0))
      (Scenario.three_inputs [2; 3]%Z [3; 4]%Z [2; 4]%Z [2; 4]%Z "_y")
      (Scenario.arrays [2; 3]%Z [3; 4]%Z [2; 4]%Z [2; 4]%Z Default)
      (lower "S" +:+ "gemm") "1.0f" "0.0f".
Proof.
  destruct (@mkl_type_dispatch sample
              (Scenario.gemm false false (Scenario.int 1) (Scenario.int 0))
              (Scenario.three_inputs [2; 3]%Z [3; 4]%Z [2; 4]%Z [2; 4]%Z "_y")
              (Scenario.arrays [2; 3]%Z [3; 4]%Z [2; 4]%Z [2; 4]%Z Default)
              float32) as [_ Hfour];
    [reflexivity | vm_compute; reflexivity |].
  apply (Hfour "S"); reflexivity.
Defined.

(** The call that the lowering emits on the sample, and the rejection of
    [float16]. *)
Lemma mkl_sample :
  (tasklet ← @ExpandGemmMKL.expansion sample
     (Scenario.gemm false false (Scenario.int 1) (Scenario.int 0))
     (Scenario.three_inputs [2; 3]%Z [3; 4]%Z [2; 4]%Z [2; 4]%Z "_y")
     (Scenario.arrays [2; 3]%Z [3; 4]%Z [2; 4]%Z [2; 4]%Z Default);
   Ok (Tasklet.code tasklet))
  = Ok "cblas_sgemm(CblasColMajor, CblasNoTrans, CblasNoTrans, 4, 2, 3, 1.0f, _b, 4, _a, 3, 0.0f, _c, 4);"
  ∧ @ExpandGemmMKL.expansion sample
      (Gemm.__init__ "gemm" (Some float16) false false (Scenario.int 1)
         (Scenario.int 0))
      (Scenario.three_inputs [2; 3]%Z [3; 4]%Z [2; 4]%Z [2; 4]%Z "_y")
      (Scenario.arrays [2; 3]%Z [3; 4]%Z [2; 4]%Z [2; 4]%Z Default)
    = Raise (ValueError "Unsupported type for BLAS dot product: float16").
Proof. split; vm_compute; reflexivity. Qed.

(** ** The cuBLAS lowering *)

Lemma on_device_resident desc :
  ExpandGemmCuBLAS.on_device desc = true ↔ device_resident desc.
Proof. unfold ExpandGemmCuBLAS.on_device. apply bool_decide_eq_true. Qed.

Lemma all_on_device adesc bdesc cdesc :
  forallb ExpandGemmCuBLAS.on_device [adesc; bdesc; cdesc] = true
  ↔ Forall device_resident [adesc; bdesc; cdesc].
Proof.
  simpl. rewrite !andb_true_iff, !Forall_cons, !on_device_resident, Forall_nil.
  tauto.
Qed.

Lemma copy_to_gpu_bare tasklet adesc bdesc cdesc :
  forallb ExpandGemmCuBLAS.on_device [adesc; bdesc; cdesc] = true →
  ExpandGemmCuBLAS.copy_to_gpu tasklet adesc bdesc cdesc
  = Ok (BareTasklet tasklet).
Proof. intros Hdev. unfold ExpandGemmCuBLAS.copy_to_gpu. by rewrite Hdev. Qed.

(** The staging subgraph: one state that holds the tasklet, the six
    declared arrays and the six edges. *)
Lemma copy_to_gpu_staged tasklet adesc bdesc cdesc :
  forallb ExpandGemmCuBLAS.on_device [adesc; bdesc; cdesc] = false →
  ∃ g st,
    ExpandGemmCuBLAS.copy_to_gpu tasklet adesc bdesc cdesc = Ok (NestedSDFG g)
    ∧ SDFG.states g = [st]
    ∧ TaskletNode tasklet ∈ SDFGState.nodes st
    ∧ host_copy g "_a" adesc ∧ host_copy g "_b" bdesc ∧ host_copy g "_c" cdesc
    ∧ gpu_mirror g "_a" adesc ∧ gpu_mirror g "_b" bdesc
    ∧ gpu_mirror g "_c" cdesc
    ∧ has_edge st (AccessNode "_a" ReadOnly) None
        (AccessNode "_a_gpu" ReadWrite) None (Memlet.from_array "_a" adesc)
    ∧ has_edge st (AccessNode "_b" ReadOnly) None
        (AccessNode "_b_gpu" ReadWrite) None (Memlet.from_array "_b" bdesc)
    ∧ has_edge st (AccessNode "_a_gpu" ReadWrite) None
        (TaskletNode tasklet) (Some "_a") (Memlet.from_array "_a_gpu" adesc)
    ∧ has_edge st (AccessNode "_b_gpu" ReadWrite) None
        (TaskletNode tasklet) (Some "_b") (Memlet.from_array "_b_gpu" bdesc)
    ∧ has_edge st (TaskletNode tasklet) (Some "_c")
        (AccessNode "_c_gpu" ReadWrite) None (Memlet.from_array "_c_gpu" cdesc)
    ∧ has_edge st (AccessNode "_c_gpu" ReadWrite) None
        (AccessNode "_c" WriteOnly) None (Memlet.from_array "_c" cdesc).
Proof.
  intros Hdev. unfold ExpandGemmCuBLAS.copy_to_gpu. rewrite Hdev.
  cbn [negb]. cbv iota.
  eexists _, _. split; [compute_lhs; reflexivity|].
  split; [reflexivity|].
  split; [apply (list_elem_of_lookup_2 _ 6); reflexivity|].
  unfold host_copy, gpu_mirror.
  repeat (split; [vm_compute; reflexivity|]).
  repeat split.
  - edge_at 0%nat.
  - edge_at 1%nat.
  - edge_at 2%nat.
  - edge_at 3%nat.
  - edge_at 4%nat.
  - edge_at 5%nat.
Qed.

(** A lowering that returned has resolved the three descriptors, built
    the tasklet of the node and ended in the copy decision. *)
Lemma cublas_expansion_Ok `{Collaborators} node state sdfg r :
  ExpandGemmCuBLAS.expansion node state sdfg = Ok r →
  ∃ tasklet adesc bdesc cdesc,
    ExpandGemmCuBLAS.find_descs state sdfg
    = Ok (Some adesc, Some bdesc, Some cdesc)
    ∧ Tasklet.name tasklet = Gemm.name node
    ∧ Tasklet.in_connectors tasklet = Gemm.in_connectors node
    ∧ Tasklet.out_connectors tasklet = Gemm.out_connectors node
    ∧ Tasklet.language tasklet = CPP
    ∧ ExpandGemmCuBLAS.copy_to_gpu tasklet adesc bdesc cdesc = Ok r.
Proof.
  unfold ExpandGemmCuBLAS.expansion. intros He.
  apply bind_Ok in He as ([] & _ & He).
  apply bind_Ok in He as ([[func cdtype] factort] & _ & He).
  apply bind_Ok in He as ([[adesc bdesc] cdesc] & Hd & He).
  destruct adesc as [adesc|], bdesc as [bdesc|], cdesc as [cdesc|];
    try discriminate.
  apply bind_Ok in He as (opt & _ & He).
  apply bind_Ok in He as (batch & _ & He).
  apply bind_Ok in He as (call & _ & He).
  eexists _, adesc, bdesc, cdesc. split; [done|].
  repeat split; [..|exact He]; reflexivity.
Qed.

(** C6.  Whenever the cuBLAS lowering returns, it has resolved the three
    descriptors of [_a], [_b] and [_c] and built the tasklet that carries
    the node's name and the call as C++ code, and its result is the bare
    tasklet exactly when all three are in GPU global or pinned host memory.
    Otherwise the result is a nested SDFG with one state, which holds the
    tasklet; the SDFG declares a transient mirror in GPU global memory for
    each of the three operands; the state copies [_a] and [_b] to their
    mirrors, connects the mirrors to the tasklet's [_a] and [_b], connects
    the tasklet's [_c] to the mirror of [_c] and copies that mirror to
    [_c]. *)
Theorem cublas_staging `{Collaborators} node state sdfg r :
  ExpandGemmCuBLAS.expansion node state sdfg = Ok r →
  ∃ tasklet adesc bdesc cdesc,
    ExpandGemmCuBLAS.find_descs state sdfg
    = Ok (Some adesc, Some bdesc, Some cdesc)
    ∧ Tasklet.name tasklet = Gemm.name node
    ∧ Tasklet.language tasklet = CPP
    ∧ (r = BareTasklet tasklet ↔ Forall device_resident [adesc; bdesc; cdesc])
    ∧ (¬ Forall device_resident [adesc; bdesc; cdesc] →
       ∃ g st,
         r = NestedSDFG g ∧ SDFG.states g = [st]
         ∧ TaskletNode tasklet ∈ SDFGState.nodes st
         ∧ gpu_mirror g "_a" adesc ∧ gpu_mirror g "_b" bdesc
         ∧ gpu_mirror g "_c" cdesc
         ∧ has_edge st (AccessNode "_a" ReadOnly) None
             (AccessNode "_a_gpu" ReadWrite) None
             (Memlet.from_array "_a" adesc)
         ∧ has_edge st (AccessNode "_b" ReadOnly) None
             (AccessNode "_b_gpu" ReadWrite) None
             (Memlet.from_array "_b" bdesc)
         ∧ has_edge st (AccessNode "_a_gpu" ReadWrite) None
             (TaskletNode tasklet) (Some "_a")
             (Memlet.from_array "_a_gpu" adesc)
         ∧ has_edge st (AccessNode "_b_gpu" ReadWrite) None
             (TaskletNode tasklet) (Some "_b")
             (Memlet.from_array "_b_gpu" bdesc)
         ∧ has_edge st (TaskletNode tasklet) (Some "_c")
             (AccessNode "_c_gpu" ReadWrite) None
             (Memlet.from_array "_c_gpu" cdesc)
         ∧ has_edge st (AccessNode "_c_gpu" ReadWrite) None
             (AccessNode "_c" WriteOnly) None
             (Memlet.from_array "_c" cdesc)).
Proof.
  intros (tasklet & adesc & bdesc & cdesc & Hd & Hname & _ & _ & Hlang & Hc)
    %cublas_expansion_Ok.
  exists tasklet, adesc, bdesc, cdesc. do 3 (split; [done|]).
  destruct (forallb ExpandGemmCuBLAS.on_device [adesc; bdesc; cdesc]) eqn:Hdev.
  - rewrite (copy_to_gpu_bare _ _ _ _ Hdev) in Hc. injection Hc as <-.
    apply all_on_device in Hdev. split; [done|]. by intros [].
  - destruct (copy_to_gpu_staged tasklet _ _ _ Hdev)
      as (g & st & Hg & Hst & Ht & _ & _ & _ & Hrest).
    rewrite Hg in Hc. injection Hc as <-.
    assert (¬ Forall device_resident [adesc; bdesc; cdesc]) as Hn
      by (rewrite <- all_on_device, Hdev; discriminate).
    split; [split; [discriminate | by intros ?]|].
    intros _. by exists g, st.
Qed.

(** The statement above on host arrays, the output leaving the node at a
    connector named [_c]: the lowering returns and the result is the
    staging subgraph. *)
Lemma cublas_staging_witness :
  ∃ r tasklet adesc bdesc cdesc,
    @ExpandGemmCuBLAS.expansion sample
      (Scenario.gemm false false (Scenario.int 1) (Scenario.int 0))
      (Scenario.three_inputs [2; 3]%Z [3; 4]%Z [2; 4]%Z [2; 4]%Z "_c")
      (Scenario.arrays [2; 3]%Z [3; 4]%Z [2; 4]%Z [2; 4]%Z Default) = Ok r
    ∧ ExpandGemmCuBLAS.find_descs
        (Scenario.three_inputs [2; 3]%Z [3; 4]%Z [2; 4]%Z [2; 4]%Z "_c")
        (Scenario.arrays [2; 3]%Z [3; 4]%Z [2; 4]%Z [2; 4]%Z Default)
      = Ok (Some adesc, Some bdesc, Some cdesc)
    ∧ (r = BareTasklet tasklet ↔ Forall device_resident [adesc; bdesc; cdesc]).
Proof.
  eassert (@ExpandGemmCuBLAS.expansion sample
             (Scenario.gemm false false (Scenario.int 1) (Scenario.int 0))
             (Scenario.three_inputs [2; 3]%Z [3; 4]%Z [2; 4]%Z [2; 4]%Z "_c")
             (Scenario.arrays [2; 3]%Z [3; 4]%Z [2; 4]%Z [2; 4]%Z Default)
           = Ok _) as He by (vm_compute; reflexivity).
  destruct (@cublas_staging sample _ _ _ _ He)
    as (tasklet & adesc & bdesc & cdesc & Hd & _ & _ & Hiff & _).
  eexists _, tasklet, adesc, bdesc, cdesc. split; [exact He|]. by split.
Defined.

(** On the sample the mirrors are needed for host arrays and not for
    arrays in GPU global memory; and a node whose output leaves at its
    declared connector [_y] has no [_c] output to resolve. *)
Lemma cublas_sample :
  (r ← @ExpandGemmCuBLAS.expansion sample
     (Scenario.gemm false false (Scenario.int 1) (Scenario.int 0))
     (Scenario.three_inputs [2; 3]%Z [3; 4]%Z [2; 4]%Z [2; 4]%Z "_c")
     (Scenario.arrays [2; 3]%Z [3; 4]%Z [2; 4]%Z [2; 4]%Z Default);
   Ok (match r with NestedSDFG _ => true | BareTasklet _ => false end))
  = Ok true
  ∧ (r ← @ExpandGemmCuBLAS.expansion sample
       (Scenario.gemm false false (Scenario.int 1) (Scenario.int 0))
       (Scenario.three_inputs [2; 3]%Z [3; 4]%Z [2; 4]%Z [2; 4]%Z "_c")
       (Scenario.arrays [2; 3]%Z [3; 4]%Z [2; 4]%Z [2; 4]%Z GPU_Global);
     Ok (match r with NestedSDFG _ => true | BareTasklet _ => false end))
    = Ok false
  ∧ @ExpandGemmCuBLAS.expansion sample
      (Scenario.gemm false false (Scenario.int 1) (Scenario.int 0))
      (Scenario.three_inputs [2; 3]%Z [3; 4]%Z [2; 4]%Z [2; 4]%Z "_y")
      (Scenario.arrays [2; 3]%Z [3; 4]%Z [2; 4]%Z [2; 4]%Z GPU_Global)
    = Raise ExpandGemmCuBLAS.unsupported_arrays.
Proof. repeat split; vm_compute; reflexivity. Qed.

(** ** The pure lowering *)

(** The lowering stops at [np.result_type]: the error of the input finder
    or [NameError]. *)
Lemma make_sdfg_Raise `{Collaborators} node ps pg :
  ExpandGemmPure.make_sdfg node ps pg
  = (_ ← _get_matmul_inputs node ps pg; Raise np_unbound).
Proof.
  unfold ExpandGemmPure.make_sdfg.
  by destruct (_get_matmul_inputs node ps pg).
Qed.

(** C7, where the code leaves the claim.  Once the inputs are found, the
    pure lowering raises [NameError] at [np.result_type], before it
    declares an array or adds a state: with [beta] 0 or without a [_c]
    input no multiplication map writes [_y], and with a [_c] input and
    [beta] other than 0 no temporary is declared and no addition map is
    added. *)
Theorem pure_lowering_emits_no_stage `{Collaborators} node ps pg inputs :
  _get_matmul_inputs node ps pg = Ok inputs →
  ExpandGemmPure.make_sdfg node ps pg = Raise np_unbound.
Proof. intros Hin. by rewrite make_sdfg_Raise, Hin. Qed.

(** The statement above at a node with a [_c] input and [beta = 0], A of
    2x3 and B of 3x4. *)
Lemma pure_lowering_emits_no_stage_witness :
  @ExpandGemmPure.make_sdfg sample
    (Scenario.gemm false false (Scenario.int 1) (Scenario.int 0))
    (Scenario.three_inputs [2; 3]%Z [3; 4]%Z [2; 4]%Z [2; 4]%Z "_y")
    (Scenario.arrays [2; 3]%Z [3; 4]%Z [2; 4]%Z [2; 4]%Z Default)
  = Raise np_unbound.
Proof.
  eassert (@_get_matmul_inputs sample
             (Scenario.gemm false false (Scenario.int 1) (Scenario.int 0))
             (Scenario.three_inputs [2; 3]%Z [3; 4]%Z [2; 4]%Z [2; 4]%Z "_y")
             (Scenario.arrays [2; 3]%Z [3; 4]%Z [2; 4]%Z [2; 4]%Z Default)
           = Ok _) as Hin by (vm_compute; reflexivity).
  exact (@pure_lowering_emits_no_stage sample _ _ _ _ Hin).
Defined.



(** ** Further properties *)

Lemma index_Raise {A} (l : list A) i e :
  index l i = Raise e → e = IndexError "list index out of range".
Proof. unfold index. destruct (l !! i); congruence. Qed.

(** X4.  The dimension error is raised exactly when some operand has more
    than three dimensions. *)
Theorem batch_detection_dimension_error
    a_shape a_strides b_shape b_strides c_shape c_strides :
  _get_batchmm_opts a_shape a_strides b_shape b_strides c_shape c_strides
  = Raise too_many_dimensions
  ↔ (3 < length a_shape)%nat ∨ (3 < length b_shape)%nat
    ∨ (3 < seq_len c_shape)%nat.
Proof.
  unfold _get_batchmm_opts.
  destruct (3 <? length a_shape)%nat eqn:Ea;
    [apply Nat.ltb_lt in Ea; simpl; by intuition|].
  destruct (3 <? length b_shape)%nat eqn:Eb;
    [apply Nat.ltb_lt in Eb; simpl; by intuition|].
  destruct (3 <? seq_len c_shape)%nat eqn:Ec.
  - apply Nat.ltb_lt in Ec.
    assert (seq_truthy c_shape = true) as ->
      by (destruct c_shape as [[|? ?]|]; simpl in *; by try lia).
    simpl. by intuition.
  - rewrite andb_false_r. simpl.
    apply Nat.ltb_ge in Ea, Eb, Ec. split; [|lia].
    intros Hr. exfalso. revert Hr. unfold batch_mismatch, too_many_dimensions.
    run_checks; try discriminate.
    all: repeat match goal with
                | E : index _ _ = Raise _ |- _ => apply index_Raise in E as ->
                end; discriminate.
Qed.

Lemma find_output_none sdfg (outs : list Edge.t) :
  (∀ e, e ∈ outs → Edge.src_conn e ≠ Some "_c") →
  for_each (ExpandGemmCuBLAS.find_output sdfg) outs None = Ok None.
Proof.
  induction outs as [|e outs IH]; [done|]. intros Hc.
  assert (ExpandGemmCuBLAS.find_output sdfg None e = Ok None) as Hstep.
  { unfold ExpandGemmCuBLAS.find_output.
    rewrite decide_False; [done|]. apply Hc, list_elem_of_here. }
  cbn [for_each]. rewrite Hstep. simpl.
  apply IH. intros e' He'. by apply Hc, list_elem_of_further.
Qed.

(** X3.  The cuBLAS lowering returns only if some output edge leaves the
    node at a connector named [_c]: with no such edge the output
    descriptor stays unresolved and the lowering raises. *)
Theorem cublas_needs_c_output `{Collaborators} node state sdfg :
  (∀ e, e ∈ out_edges state → Edge.src_conn e ≠ Some "_c") →
  ∃ e, ExpandGemmCuBLAS.expansion node state sdfg = Raise e.
Proof.
  intros Hc.
  destruct (ExpandGemmCuBLAS.expansion node state sdfg) as [r|e] eqn:E;
    [exfalso | by exists e].
  apply cublas_expansion_Ok in E as (tasklet & adesc & bdesc & cdesc & Hd & _).
  unfold ExpandGemmCuBLAS.find_descs in Hd.
  apply bind_Ok in Hd as ([a b] & _ & Hd).
  rewrite (find_output_none _ _ Hc) in Hd. discriminate.
Qed.

(** The statement above at a node whose output leaves at [_y], the one
    output connector that the node declares. *)
Lemma cublas_needs_c_output_witness :
  ∃ e, @ExpandGemmCuBLAS.expansion sample
         (Scenario.gemm false false (Scenario.int 1) (Scenario.int 0))
         (Scenario.three_inputs [2; 3]%Z [3; 4]%Z [2; 4]%Z [2; 4]%Z "_y")
         (Scenario.arrays [2; 3]%Z [3; 4]%Z [2; 4]%Z [2; 4]%Z GPU_Global)
       = Raise e.
Proof.
  apply (@cublas_needs_c_output sample). intros e He.
  apply list_elem_of_singleton in He as ->. discriminate.
Defined.

(** The statement on two input edges at A of 2x3 and B of 3x4. *)
Lemma validate_two_inputs_raises_witness :
  ∃ e, Gemm.validate
         (Scenario.gemm false false (Scenario.int 1) (Scenario.int 0))
         (Scenario.arrays [2; 3]%Z [3; 4]%Z [2; 4]%Z [2; 4]%Z Default)
         (Scenario.two_inputs [2; 3]%Z [3; 4]%Z [2; 4]%Z "_y") = Raise e.
Proof. apply validate_two_inputs_raises. reflexivity. Defined.

(** The statement on the edge counts at a node with four input edges. *)
Lemma validate_edge_counts_witness :
  Gemm.validate (Scenario.gemm false false (Scenario.int 1) (Scenario.int 0))
    (Scenario.arrays [2; 3]%Z [3; 4]%Z [2; 4]%Z [2; 4]%Z Default)
    {| in_edges :=
         [Scenario.input "_a" "A" [2; 3]%Z; Scenario.input "_b" "B" [3; 4]%Z;
          Scenario.input "_c" "C" [2; 4]%Z; Scenario.input "_c" "C" [2; 4]%Z];
       out_edges := [Scenario.output "_y" "Y" [2; 4]%Z] |}
  = Raise (ValueError "Expected 2 or 3 inputs to gemm").
Proof.
  apply validate_edge_counts. simpl.
  rewrite !not_elem_of_cons. repeat split; try discriminate.
  apply not_elem_of_nil.
Defined.

(** ** Batch detection, further *)

(** X6.  With a stride sequence as long as each shape, the only errors of
    batch detection are its two own; and a rank-3 operand A without
    strides makes it raise [IndexError]. *)
Theorem batch_detection_errors
    a_shape a_strides b_shape b_strides c_shape c_strides :
  (length a_strides = length a_shape → length b_strides = length b_shape →
   length c_strides = seq_len c_shape →
   ∀ e, _get_batchmm_opts a_shape a_strides b_shape b_strides c_shape
          c_strides = Raise e →
        e = too_many_dimensions ∨ e = batch_mismatch)
  ∧ (length a_shape = 3%nat → a_strides = [] →
     (length b_shape ≤ 3)%nat → (seq_len c_shape ≤ 3)%nat →
     ∃ msg, _get_batchmm_opts a_shape a_strides b_shape b_strides c_shape
              c_strides = Raise (IndexError msg)).
Proof.
  split.
  - intros Hsa Hsb Hsc e. unfold _get_batchmm_opts.
    destruct (_ || _ || _); [intros [= <-]; by left|].
    destruct (_ && _); [discriminate|].
    destruct c_shape as [c_shape|]; [by_rank c_shape|];
      by_rank a_shape; by_rank b_shape.
    all: by_rank a_strides; by_rank b_strides; by_rank c_strides.
    all: run_checks; try discriminate.
    all: intros [= <-]; by right.
  - intros Ha -> Hb Hc. unfold _get_batchmm_opts.
    destruct c_shape as [c_shape|]; [by_rank c_shape|];
      by_rank a_shape; by_rank b_shape; eauto.
Qed.

Lemma batch_detection_errors_witness :
  (∀ e, _get_batchmm_opts [2; 5; 3]%Z [15; 3; 1]%Z [3; 3; 4]%Z [12; 4; 1]%Z
          (Some [5; 4]%Z) [4; 1]%Z = Raise e →
        e = too_many_dimensions ∨ e = batch_mismatch)
  ∧ ∃ msg, _get_batchmm_opts [2; 5; 3]%Z [] [3; 4]%Z [4; 1]%Z
             (Some [5; 4]%Z) [4; 1]%Z = Raise (IndexError msg).
Proof.
  split.
  - apply (batch_detection_errors [2; 5; 3]%Z [15; 3; 1]%Z [3; 3; 4]%Z
             [12; 4; 1]%Z (Some [5; 4]%Z) [4; 1]%Z); reflexivity.
  - apply (batch_detection_errors [2; 5; 3]%Z [] [3; 4]%Z [4; 1]%Z
             (Some [5; 4]%Z) [4; 1]%Z); simpl; first [reflexivity | lia].
Defined.

(** X7.  For operands of rank at most 3 with a stride sequence as long as
    each shape, the batch-size error is raised exactly when some rank-3
    operand has a leading dimension that is not 0 and differs from the
    leading dimension of the next rank-3 operand, in the order A, B, C. *)
Theorem batch_mismatch_iff
    a_shape a_strides b_shape b_strides c_shape c_strides :
  (length a_shape ≤ 3)%nat → (length b_shape ≤ 3)%nat →
  (seq_len c_shape ≤ 3)%nat →
  length a_strides = length a_shape → length b_strides = length b_shape →
  length c_strides = seq_len c_shape →
  _get_batchmm_opts a_shape a_strides b_shape b_strides c_shape c_strides
  = Raise batch_mismatch
  ↔ (length a_shape = 3%nat ∨ length b_shape = 3%nat)
    ∧ differ_in_turn (leading_dims a_shape b_shape c_shape) = true.
Proof.
  intros Ha Hb Hc Hsa Hsb Hsc.
  unfold _get_batchmm_opts, leading_dims.
  destruct c_shape as [c_shape|]; [by_rank c_shape|];
    by_rank a_shape; by_rank b_shape.
  all: by_rank a_strides; by_rank b_strides; by_rank c_strides.
  all: try (split; [discriminate | intros [[?|?] ?]; lia]).
  all: unfold batch_differs.
  all: repeat (match goal with
               | |- context [(?x =? ?y)%Z] =>
                   destruct (Z.eqb_spec x y); try subst; try done
               end; simpl).
  all: split; try discriminate; try done; try (intros [_ ?]; done).
  all: try (intros _; split; [lia | done]).
Qed.

Lemma batch_mismatch_iff_witness :
  _get_batchmm_opts [2; 5; 3]%Z [15; 3; 1]%Z [3; 3; 4]%Z [12; 4; 1]%Z
    (Some [5; 4]%Z) [4; 1]%Z = Raise batch_mismatch.
Proof.
  apply (batch_mismatch_iff [2; 5; 3]%Z [15; 3; 1]%Z [3; 3; 4]%Z [12; 4; 1]%Z
           (Some [5; 4]%Z) [4; 1]%Z); simpl; first [lia | reflexivity].
Defined.

(** X8.  Whenever batch detection returns, it returns either the empty
    dictionary, and then A and B both have rank at most 2, or the
    dictionary whose batch size [b] is the leading dimension of the last
    rank-3 operand in the order A, B, C and whose [sa], [sb], [sc] are the
    leading strides of the rank-3 operands and 0 for the others. *)
Theorem batch_detection_result
    a_shape a_strides b_shape b_strides c_shape c_strides d :
  _get_batchmm_opts a_shape a_strides b_shape b_strides c_shape c_strides
  = Ok d →
  (d = ∅ ∧ (length a_shape ≤ 2)%nat ∧ (length b_shape ≤ 2)%nat)
  ∨ (∃ n,
       (length a_shape = 3%nat ∨ length b_shape = 3%nat)
       ∧ last (leading_dims a_shape b_shape c_shape) = Some n
       ∧ d = <["sa" := leading_stride a_shape a_strides]>
               (<["sb" := leading_stride b_shape b_strides]>
                 (<["sc" := leading_stride (default [] c_shape) c_strides]>
                   (<["b" := n]> ∅)))).
Proof.
  unfold _get_batchmm_opts, leading_dims, leading_stride.
  destruct (_ || _ || _) eqn:Hdim; [discriminate|].
  apply orb_false_iff in Hdim as [[Ha Hb]%orb_false_iff Hc].
  apply Nat.ltb_ge in Ha, Hb.
  assert (seq_len c_shape ≤ 3)%nat as Hc'.
  { destruct c_shape as [[|? ?]|]; simpl in *; try lia.
    by apply Nat.ltb_ge in Hc. }
  clear Hc.
  destruct c_shape as [c_shape|]; [by_rank c_shape|];
    by_rank a_shape; by_rank b_shape.
  all: try (intros [= <-]; left; split; [done | lia]).
  all: intros Hr; right; revert Hr.
  all: run_checks; try discriminate.
  all: repeat match goal with
              | E : index _ _ = Ok _ |- _ => apply index_Ok in E
              end.
  all: intros [= <-]; eexists; split; [lia | split; [reflexivity|]].
  all: repeat match goal with
              | E : _ !! _ = Some _ |- _ => rewrite E; clear E
              end; reflexivity.
Qed.

Lemma batch_detection_result_witness :
  ∃ n, last (leading_dims [0; 2; 2]%Z [5; 2; 2]%Z None) = Some n
       ∧ _get_batchmm_opts [0; 2; 2]%Z [4; 2; 1]%Z [5; 2; 2]%Z [4; 2; 1]%Z
           None []
         = Ok (<["sa" := leading_stride [0; 2; 2]%Z [4; 2; 1]%Z]>
                (<["sb" := leading_stride [5; 2; 2]%Z [4; 2; 1]%Z]>
                  (<["sc" := leading_stride (default [] None) []]>
                    (<["b" := n]> ∅)))).
Proof.
  eassert (_get_batchmm_opts [0; 2; 2]%Z [4; 2; 1]%Z [5; 2; 2]%Z [4; 2; 1]%Z
             None [] = Ok _) as Hr by reflexivity.
  destruct (batch_detection_result _ _ _ _ _ _ _ Hr)
    as [(Hd & _) | (n & _ & Hn & Hd)].
  - by apply insert_non_empty in Hd.
  - exists n. split; [exact Hn|]. rewrite Hr. by rewrite Hd.
Defined.

(** ** Validation, further *)

(** The sizes that the loop of [validate] binds do not depend on the order
    of three edges that enter at [_a], [_b] and [_c]. *)
Lemma bind_sizes_three ins (ea eb ec : Edge.t) :
  ins ≡ₚ [ea; eb; ec] →
  Edge.dst_conn ea = Some "_a" → Edge.dst_conn eb = Some "_b" →
  Edge.dst_conn ec = Some "_c" →
  foldl Gemm.bind_sizes (None, None, None) ins
  = (Some (squeezed_size (Edge.data ea)), Some (squeezed_size (Edge.data eb)),
     Some (squeezed_size (Edge.data ec))).
Proof.
  intros Hp Ha Hb Hc.
  assert (length ins = 3%nat) as Hlen by (by rewrite Hp).
  assert (∀ e, e ∈ ins ↔ e = ea ∨ e = eb ∨ e = ec) as Hin.
  { intros e. rewrite Hp, !elem_of_cons, elem_of_nil. tauto. }
  assert (NoDup ins) as Hnd.
  { rewrite Hp. repeat constructor; rewrite ?elem_of_cons, ?elem_of_nil;
      intuition congruence. }
  destruct ins as [|x [|y [|z [|]]]]; try done.
  apply NoDup_cons in Hnd as [Hxy Hnd]. apply NoDup_cons in Hnd as [Hyz _].
  apply not_elem_of_cons in Hxy as [Hxy [Hxz _]%not_elem_of_cons].
  apply not_elem_of_cons in Hyz as [Hyz _].
  pose proof (proj1 (Hin x)) as Hx. pose proof (proj1 (Hin y)) as Hy.
  pose proof (proj1 (Hin z)) as Hz.
  rewrite !elem_of_cons in Hx, Hy, Hz.
  destruct Hx as [->| [->| ->]]; [tauto|..]; destruct Hy as [->| [->| ->]];
    [tauto|..]; try tauto; destruct Hz as [->| [->| ->]]; [tauto|..];
    try tauto.
  all: simpl; unfold Gemm.bind_sizes; rewrite Ha, Hb, Hc.
  all: repeat case_decide; congruence.
Qed.

(** X9.  On a node with one input edge at each of [_a], [_b] and [_c], in
    any order, and one output edge, validation succeeds exactly when, after
    squeezing, A is [m] by [k], B is [k] by [n], and C and the output are
    both [m] by [n]. *)
Theorem validate_accepts_iff self sdfg state ea eb ec out :
  in_edges state ≡ₚ [ea; eb; ec] →
  Edge.dst_conn ea = Some "_a" → Edge.dst_conn eb = Some "_b" →
  Edge.dst_conn ec = Some "_c" →
  out_edges state = [out] →
  Gemm.validate self sdfg state = Ok ()
  ↔ ∃ m k n,
      squeezed_size (Edge.data ea) = [m; k]
      ∧ squeezed_size (Edge.data eb) = [k; n]
      ∧ squeezed_size (Edge.data ec) = [m; n]
      ∧ squeezed_size (Edge.data out) = [m; n].
Proof.
  intros Hp Ha Hb Hc Hout. unfold Gemm.validate.
  rewrite (bind_sizes_three _ _ _ _ Hp Ha Hb Hc), Hout.
  assert (length (in_edges state) = 3%nat) as -> by (by rewrite Hp).
  cbn [length Nat.eqb negb index lookup list_lookup mbind result_bind local].
  generalize (squeezed_size (Edge.data ea)) (squeezed_size (Edge.data eb))
    (squeezed_size (Edge.data ec)) (squeezed_size (Edge.data out)).
  intros s0 s1 s2 s3. simpl.
  destruct s0 as [|m [|k [|? ?]]]; simpl;
    try (split; [discriminate | intros (? & ? & ? & ? & _); discriminate]).
  destruct s1 as [|k' [|n [|? ?]]]; simpl;
    try (split; [discriminate | intros (? & ? & ? & _ & ? & _); discriminate]).
  destruct s2 as [|? [|? [|? ?]]]; simpl;
    try (split; [discriminate
                | intros (? & ? & ? & _ & _ & ? & _); discriminate]).
  destruct (Z.eqb_spec k k') as [<-|Hk]; simpl;
    [|split; [discriminate | intros (? & ? & ? & ? & ? & _); congruence]].
  destruct s3 as [|? [|? [|? ?]]]; simpl;
    try (split; [discriminate
                | intros (? & ? & ? & _ & _ & _ & ?); discriminate]).
  repeat case_bool_decide; simpl; split; try discriminate; try done.
  all: try (intros (? & ? & ? & ? & ? & ? & ?); congruence).
  intros _. exists m, k, n. repeat split; congruence.
Qed.

Lemma validate_accepts_iff_witness :
  Gemm.validate (Scenario.gemm false false (Scenario.int 1) (Scenario.int 0))
    (Scenario.arrays [2; 3]%Z [3; 4]%Z [2; 4]%Z [2; 4]%Z Default)
    {| in_edges :=
         [Scenario.input "_c" "C" [2; 4]%Z; Scenario.input "_b" "B" [3; 4]%Z;
          Scenario.input "_a" "A" [2; 3]%Z];
       out_edges := [Scenario.output "_y" "Y" [2; 4]%Z] |}
  = Ok ().
Proof.
  apply (validate_accepts_iff _ _ _ (Scenario.input "_a" "A" [2; 3]%Z)
           (Scenario.input "_b" "B" [3; 4]%Z)
           (Scenario.input "_c" "C" [2; 4]%Z)
           (Scenario.output "_y" "Y" [2; 4]%Z)); try reflexivity.
  - simpl. apply Permutation_sym.
    etrans; [apply perm_skip, perm_swap|].
    etrans; [apply perm_swap|]. apply perm_skip, perm_swap.
  - by exists 2%Z, 3%Z, 4%Z.
Defined.

(** No edge into a connector leaves its local of the loop as it was. *)
Lemma bind_sizes_no_a ins s0 s1 s2 :
  (∀ e, e ∈ ins → Edge.dst_conn e ≠ Some "_a") →
  (foldl Gemm.bind_sizes (s0, s1, s2) ins).1.1 = s0.
Proof.
  revert s0 s1 s2. induction ins as [|e ins IH]; [done|].
  intros s0 s1 s2 Hno. cbn [foldl].
  assert (Edge.dst_conn e ≠ Some "_a") as He
    by apply Hno, list_elem_of_here.
  unfold Gemm.bind_sizes at 2. rewrite (decide_False _ _ He).
  apply IH. intros e' He'. by apply Hno, list_elem_of_further.
Qed.

(** X10.  With two or three input edges none of which enters at [_a], and
    one output edge, validation raises [UnboundLocalError]: [size0] is read
    before any assignment has reached it. *)
Theorem validate_missing_a self sdfg state :
  length (in_edges state) ∈ [2; 3]%nat → length (out_edges state) = 1%nat →
  no_operand "_a" state →
  Gemm.validate self sdfg state = Raise (UnboundLocalError "size0").
Proof.
  intros Hin Hout Hno. unfold Gemm.validate.
  rewrite bool_decide_eq_true_2 by done. cbn [negb].
  pose proof (bind_sizes_no_a (in_edges state) None None None Hno) as Hs.
  destruct (foldl _ _ _) as [[size0 size1] size2]. simpl in Hs. subst size0.
  rewrite Hout. cbn [Nat.eqb negb].
  destruct (out_edges state) as [|out [|]]; try done.
Qed.

Lemma validate_missing_a_witness :
  Gemm.validate (Scenario.gemm false false (Scenario.int 1) (Scenario.int 0))
    (Scenario.arrays [2; 3]%Z [3; 4]%Z [2; 4]%Z [2; 4]%Z Default)
    {| in_edges :=
         [Scenario.input "_b" "B" [3; 4]%Z; Scenario.input "_c" "C" [2; 4]%Z];
       out_edges := [Scenario.output "_y" "Y" [2; 4]%Z] |}
  = Raise (UnboundLocalError "size0").
Proof.
  apply validate_missing_a; [simpl | reflexivity |].
  - apply list_elem_of_here.
  - intros e He. apply elem_of_cons in He as [-> | He]; [discriminate|].
    apply list_elem_of_singleton in He as ->. discriminate.
Defined.

(** ** Validation and the lowerings *)

Lemma validate_two_inputs_not_Ok self sdfg state :
  length (in_edges state) = 2%nat → Gemm.validate self sdfg state ≠ Ok ().
Proof.
  intros Hlen (s0 & s1 & s2 & Hs)%validate_Ok_sizes.
  destruct (in_edges state) as [|e1 [|e2 [|]]]; try done.
  by apply two_edges_leave_a_local in Hs.
Qed.

(** X11.  Each of the three lowerings validates the node first: an error
    of the validation is the error of the lowering, whatever the element
    type, the scalars and the arrays. *)
Theorem lowerings_validate_first `{Collaborators} node state sdfg e :
  Gemm.validate node sdfg state = Raise e →
  ExpandGemmPure.expansion node state sdfg = Raise e
  ∧ ExpandGemmMKL.expansion node state sdfg = Raise e
  ∧ ExpandGemmCuBLAS.expansion node state sdfg = Raise e.
Proof.
  intros Hv.
  unfold ExpandGemmPure.expansion, ExpandGemmMKL.expansion,
    ExpandGemmCuBLAS.expansion.
  by rewrite Hv.
Qed.

Lemma lowerings_validate_first_witness :
  @ExpandGemmPure.expansion sample
    (Gemm.__init__ "gemm" None false false (Scenario.int 1) (Scenario.int 0))
    (Scenario.three_inputs [2; 3]%Z [5; 4]%Z [2; 4]%Z [2; 4]%Z "_y")
    (Scenario.arrays [2; 3]%Z [5; 4]%Z [2; 4]%Z [2; 4]%Z Default)
  = Raise (ValueError
             "Inputs to matrix-matrix product must agree in the k-dimension")
  ∧ @ExpandGemmMKL.expansion sample
      (Gemm.__init__ "gemm" None false false (Scenario.int 1) (Scenario.int 0))
      (Scenario.three_inputs [2; 3]%Z [5; 4]%Z [2; 4]%Z [2; 4]%Z "_y")
      (Scenario.arrays [2; 3]%Z [5; 4]%Z [2; 4]%Z [2; 4]%Z Default)
    = Raise (ValueError
               "Inputs to matrix-matrix product must agree in the k-dimension")
  ∧ @ExpandGemmCuBLAS.expansion sample
      (Gemm.__init__ "gemm" None false false (Scenario.int 1) (Scenario.int 0))
      (Scenario.three_inputs [2; 3]%Z [5; 4]%Z [2; 4]%Z [2; 4]%Z "_y")
      (Scenario.arrays [2; 3]%Z [5; 4]%Z [2; 4]%Z [2; 4]%Z Default)
    = Raise (ValueError
               "Inputs to matrix-matrix product must agree in the k-dimension").
Proof. apply (@lowerings_validate_first sample). reflexivity. Defined.

(** X12.  A node with exactly two input edges, that is a product without
    a [_c] input, is lowered by none of the three implementations: each of
    them raises. *)
Theorem two_inputs_never_lowered `{Collaborators} node state sdfg :
  length (in_edges state) = 2%nat →
  (∃ e, ExpandGemmPure.expansion node state sdfg = Raise e)
  ∧ (∃ e, ExpandGemmMKL.expansion node state sdfg = Raise e)
  ∧ (∃ e, ExpandGemmCuBLAS.expansion node state sdfg = Raise e).
Proof.
  intros Hlen.
  destruct (Gemm.validate node sdfg state) as [[]|e] eqn:Hv;
    [by apply validate_two_inputs_not_Ok in Hv|].
  unfold ExpandGemmPure.expansion, ExpandGemmMKL.expansion,
    ExpandGemmCuBLAS.expansion.
  rewrite Hv. simpl. repeat split; by exists e.
Qed.

Lemma two_inputs_never_lowered_witness :
  (∃ e, @ExpandGemmPure.expansion sample
          (Scenario.gemm false false (Scenario.int 1) (Scenario.int 0))
          (Scenario.two_inputs [2; 3]%Z [3; 4]%Z [2; 4]%Z "_y")
          (Scenario.arrays [2; 3]%Z [3; 4]%Z [2; 4]%Z [2; 4]%Z Default)
        = Raise e)
  ∧ (∃ e, @ExpandGemmMKL.expansion sample
            (Scenario.gemm false false (Scenario.int 1) (Scenario.int 0))
            (Scenario.two_inputs [2; 3]%Z [3; 4]%Z [2; 4]%Z "_y")
            (Scenario.arrays [2; 3]%Z [3; 4]%Z [2; 4]%Z [2; 4]%Z Default)
          = Raise e)
  ∧ (∃ e, @ExpandGemmCuBLAS.expansion sample
            (Scenario.gemm false false (Scenario.int 1) (Scenario.int 0))
            (Scenario.two_inputs [2; 3]%Z [3; 4]%Z [2; 4]%Z "_y")
            (Scenario.arrays [2; 3]%Z [3; 4]%Z [2; 4]%Z [2; 4]%Z Default)
          = Raise e).
Proof. apply (@two_inputs_never_lowered sample). reflexivity. Defined.

(** X13.  A node whose element type is not set is lowered by no
    implementation.  After a validation that succeeded, the pure lowering
    raises its own [ValueError], and the MKL and cuBLAS lowerings raise
    [AttributeError] on reading the type of [None]. *)
Theorem lowerings_need_dtype `{Collaborators} node state sdfg :
  Gemm.dtype node = None →
  ((∃ e, ExpandGemmPure.expansion node state sdfg = Raise e)
   ∧ (∃ e, ExpandGemmMKL.expansion node state sdfg = Raise e)
   ∧ (∃ e, ExpandGemmCuBLAS.expansion node state sdfg = Raise e))
  ∧ (Gemm.validate node sdfg state = Ok () →
     (∃ msg, ExpandGemmPure.expansion node state sdfg = Raise (ValueError msg))
     ∧ (∃ msg, ExpandGemmMKL.expansion node state sdfg
               = Raise (AttributeError msg))
     ∧ (∃ msg, ExpandGemmCuBLAS.expansion node state sdfg
               = Raise (AttributeError msg))).
Proof.
  intros Hd.
  unfold ExpandGemmPure.expansion, ExpandGemmMKL.expansion,
    ExpandGemmCuBLAS.expansion, ExpandGemmMKL.select_routine,
    ExpandGemmCuBLAS.select_routine, dtype_type.
  rewrite Hd. split.
  - destruct (Gemm.validate node sdfg state) as [[]|e]; simpl;
      repeat split; eauto.
  - intros ->. simpl. repeat split; eauto.
Qed.

Lemma lowerings_need_dtype_witness :
  ∃ msg, @ExpandGemmMKL.expansion sample
           (Gemm.__init__ "gemm" None false false (Scenario.int 1)
              (Scenario.int 0))
           (Scenario.three_inputs [2; 3]%Z [3; 4]%Z [2; 4]%Z [2; 4]%Z "_y")
           (Scenario.arrays [2; 3]%Z [3; 4]%Z [2; 4]%Z [2; 4]%Z Default)
         = Raise (AttributeError msg).
Proof.
  destruct (@lowerings_need_dtype sample
              (Gemm.__init__ "gemm" None false false (Scenario.int 1)
                 (Scenario.int 0))
              (Scenario.three_inputs [2; 3]%Z [3; 4]%Z [2; 4]%Z [2; 4]%Z "_y")
              (Scenario.arrays [2; 3]%Z [3; 4]%Z [2; 4]%Z [2; 4]%Z Default)
              eq_refl) as [_ Hv].
  destruct Hv as (_ & Hm & _); [reflexivity | exact Hm].
Defined.

(** ** The pure lowering, further *)

(** X14.  The pure expansion returns for no node: it raises the error of
    the validation, its own error for an element type that is not set,
    the error of the input finder, or, when all three have passed,
    [NameError] at [np.result_type]. *)
Theorem pure_expansion_never_returns `{Collaborators} node state sdfg :
  ∃ e, ExpandGemmPure.expansion node state sdfg = Raise e
       ∧ (Gemm.validate node sdfg state = Ok () →
          is_Some (Gemm.dtype node) →
          is_ok (_get_matmul_inputs node state sdfg) = true →
          e = np_unbound).
Proof.
  unfold ExpandGemmPure.expansion. rewrite make_sdfg_Raise.
  destruct (Gemm.validate node sdfg state) as [[]|e]; simpl;
    [|exists e; split; [done | discriminate]].
  destruct (Gemm.dtype node) as [t|];
    [|eexists; split; [done | by intros _ []]].
  destruct (_get_matmul_inputs node state sdfg) as [inputs|e]; simpl;
    [|exists e; split; [done | discriminate]].
  by exists np_unbound.
Qed.

(** ** The option map, further *)

(** What an option builder that returned has computed, step by step. *)
Lemma codegen_opts_inv `{Collaborators} node state sdfg adesc bdesc cdesc
    alpha beta cdtype func opt :
  _get_codegen_gemm_opts node state sdfg adesc bdesc cdesc alpha beta cdtype
    func = Ok opt →
  ∃ inputs base bopt m n k lda ldb ldc swap opt1 bopt1,
    _get_matmul_inputs node state sdfg = Ok inputs
    ∧ get_gemm_opts (in_strides (input_a inputs)) (in_strides (input_b inputs))
        (Array.strides cdesc) = Ok base
    ∧ _get_batchmm_opts (in_shape (input_a inputs))
        (in_strides (input_a inputs)) (in_shape (input_b inputs))
        (in_strides (input_b inputs)) (Some (Array.shape cdesc))
        (Array.strides cdesc) = Ok bopt
    ∧ index_back (in_shape (input_a inputs)) 2 = Ok m
    ∧ index_back (in_shape (input_b inputs)) 1 = Ok n
    ∧ index_back (in_shape (input_a inputs)) 1 = Ok k
    ∧ base !! "lda" = Some lda ∧ base !! "ldb" = Some ldb
    ∧ base !! "ldc" = Some ldc ∧ base !! "swap" = Some swap
    ∧ (if truthy swap
       then swap_operands (before_swap base m n k lda ldb ldc, bopt)
       else Ok (before_swap base m n k lda ldb ldc, bopt)) = Ok (opt1, bopt1)
    ∧ batch_items bopt1
        (<["func" := VStr func]> (<["dtype" := VStr cdtype]>
          (<["beta" := VStr beta]> (<["alpha" := VStr alpha]> opt1))))
      = Ok opt.
Proof.
  unfold _get_codegen_gemm_opts. intros Ho.
  apply bind_Ok in Ho as (inputs & Hin & Ho).
  apply bind_Ok in Ho as (base & Hbase & Ho).
  apply bind_Ok in Ho as (bopt & Hbopt & Ho).
  apply bind_Ok in Ho as (m & Hm & Ho).
  apply bind_Ok in Ho as (n & Hn & Ho).
  apply bind_Ok in Ho as (k & Hk & Ho).
  unfold render_item in Ho.
  apply bind_Ok in Ho as (o1 & H1 & Ho).
  apply bind_Ok in H1 as (lda & Hlda%getitem_Ok & [= <-]).
  apply bind_Ok in Ho as (o2 & H2 & Ho).
  apply bind_Ok in H2 as (ldb & Hldb%getitem_Ok & [= <-]).
  apply bind_Ok in Ho as (o3 & H3 & Ho).
  apply bind_Ok in H3 as (ldc & Hldc%getitem_Ok & [= <-]).
  apply bind_Ok in Ho as (swap & Hswap%getitem_Ok & Ho).
  apply bind_Ok in Ho as ([opt1 bopt1] & Hs & Ho).
  rewrite !lookup_insert_ne in Hlda by done.
  rewrite !lookup_insert_ne in Hldb by done.
  rewrite !lookup_insert_ne in Hldc by done.
  rewrite !lookup_insert_ne in Hswap by done.
  exists inputs, base, bopt, m, n, k, lda, ldb, ldc, swap, opt1, bopt1.
  by repeat split.
Qed.

(** A key that is set before the swap keeps, in the result, the value
    that the swap gave it. *)
Lemma batch_items_lookup `{Collaborators} bopt opt opt' key :
  batch_items bopt opt = Ok opt' →
  key ∉ ["stride_a"; "stride_b"; "stride_c"; "BATCH"] →
  opt' !! key = opt !! key.
Proof.
  unfold batch_items. rewrite !not_elem_of_cons. intros Hb (? & ? & ? & ? & _).
  destruct (dict_truthy bopt).
  - apply bind_Ok in Hb as (sa & _ & Hb).
    apply bind_Ok in Hb as (sb & _ & Hb).
    apply bind_Ok in Hb as (sc & _ & Hb).
    apply bind_Ok in Hb as (b & _ & [= <-]).
    by rewrite !lookup_insert_ne by done.
  - injection Hb as <-. by rewrite lookup_insert_ne by done.
Qed.

Lemma codegen_opts_lookup `{Collaborators} base m n k lda ldb ldc swap bopt
    opt1 bopt1 alpha beta cdtype func opt key :
  (if truthy swap
   then swap_operands (before_swap base m n k lda ldb ldc, bopt)
   else Ok (before_swap base m n k lda ldb ldc, bopt)) = Ok (opt1, bopt1) →
  batch_items bopt1
    (<["func" := VStr func]> (<["dtype" := VStr cdtype]>
      (<["beta" := VStr beta]> (<["alpha" := VStr alpha]> opt1))))
  = Ok opt →
  key ∉ late_keys →
  opt !! key
  = before_swap base m n k lda ldb ldc
      !! (if truthy swap then swapped_key key else key).
Proof.
  intros Hs Hb Hkey. unfold late_keys in Hkey.
  rewrite !not_elem_of_cons in Hkey.
  destruct Hkey as (? & ? & ? & ? & ? & ? & ? & ? & _).
  rewrite (batch_items_lookup _ _ _ key Hb)
    by (rewrite !not_elem_of_cons; repeat split; try done;
        apply not_elem_of_nil).
  rewrite !lookup_insert_ne by done.
  destruct (truthy swap).
  - by apply (swap_operands_lookup _ _ _ _ _ Hs).
  - by injection Hs as <- <-.
Qed.

(** X18.  Whenever the option builder returns, its map gives [K] as the
    last dimension of A, and, by the [swap] entry of [get_gemm_opts]:
    without a swap, [M] and [N] as the last-but-one dimension of A and the
    last dimension of B, [x] and [y] as [_a] and [_b], and the leading
    dimensions and transpose codes of A and B under their own keys; with a
    swap, each of these pairs exchanged.  [ldc] is never exchanged, and
    [alpha], [beta], [dtype] and [func] are the arguments as given. *)
Theorem codegen_opts_fields `{Collaborators} node state sdfg adesc bdesc cdesc
    alpha beta cdtype func opt :
  _get_codegen_gemm_opts node state sdfg adesc bdesc cdesc alpha beta cdtype
    func = Ok opt →
  ∃ inputs base swap m n k lda ldb ldc,
    _get_matmul_inputs node state sdfg = Ok inputs
    ∧ get_gemm_opts (in_strides (input_a inputs))
        (in_strides (input_b inputs)) (Array.strides cdesc) = Ok base
    ∧ base !! "swap" = Some swap
    ∧ index_back (in_shape (input_a inputs)) 2 = Ok m
    ∧ index_back (in_shape (input_b inputs)) 1 = Ok n
    ∧ index_back (in_shape (input_a inputs)) 1 = Ok k
    ∧ base !! "lda" = Some lda ∧ base !! "ldb" = Some ldb
    ∧ base !! "ldc" = Some ldc
    ∧ opt !! "K" = Some (VStr (sym2cpp (VSym k)))
    ∧ opt !! "M" = Some (VStr (sym2cpp (VSym (if truthy swap then n else m))))
    ∧ opt !! "N" = Some (VStr (sym2cpp (VSym (if truthy swap then m else n))))
    ∧ opt !! "x" = Some (VStr (if truthy swap then "_b" else "_a"))
    ∧ opt !! "y" = Some (VStr (if truthy swap then "_a" else "_b"))
    ∧ opt !! "lda"
      = Some (VStr (sym2cpp (if truthy swap then ldb else lda)))
    ∧ opt !! "ldb"
      = Some (VStr (sym2cpp (if truthy swap then lda else ldb)))
    ∧ opt !! "ldc" = Some (VStr (sym2cpp ldc))
    ∧ opt !! "ta" = base !! (if truthy swap then "tb" else "ta")
    ∧ opt !! "tb" = base !! (if truthy swap then "ta" else "tb")
    ∧ opt !! "alpha" = Some (VStr alpha) ∧ opt !! "beta" = Some (VStr beta)
    ∧ opt !! "dtype" = Some (VStr cdtype) ∧ opt !! "func" = Some (VStr func).
Proof.
  intros
    (inputs & base & bopt & m & n & k & lda & ldb & ldc & swap & opt1 & bopt1
     & Hin & Hbase & _ & Hm & Hn & Hk & Hlda & Hldb & Hldc & Hswap & Hs & Hb)
    %codegen_opts_inv.
  exists inputs, base, swap, m, n, k, lda, ldb, ldc.
  do 9 (split; [done|]).
  assert (∀ key, key ∉ late_keys →
                 opt !! key
                 = before_swap base m n k lda ldb ldc
                     !! (if truthy swap then swapped_key key else key)) as Hl
    by (intros key; by apply (codegen_opts_lookup _ _ _ _ _ _ _ _ _ _ _ _ _ _
                                _ _ _ Hs Hb)).
  assert (∀ key, key ∈ ["K"; "M"; "N"; "x"; "y"; "lda"; "ldb"; "ldc"; "ta";
                        "tb"] → key ∉ late_keys) as Hearly.
  { intros key Hk'. unfold late_keys. rewrite !elem_of_cons in Hk'.
    rewrite !not_elem_of_cons.
    repeat destruct Hk' as [-> | Hk']; repeat split; try done;
      try apply not_elem_of_nil; by apply elem_of_nil in Hk'. }
  repeat split.
  1-10: rewrite Hl by (apply Hearly; rewrite !elem_of_cons; tauto);
    destruct (truthy swap); unfold before_swap;
    match goal with
    | |- _ !! (swapped_key ?key) = _ =>
        let key' := eval vm_compute in (swapped_key key) in
        change (swapped_key key) with key'
    | _ => idtac
    end;
    repeat (rewrite lookup_insert_ne by done); by rewrite ?lookup_insert_eq.
  all: unfold batch_items in Hb; destruct (dict_truthy bopt1).
  all: try (apply bind_Ok in Hb as (sa & _ & Hb);
            apply bind_Ok in Hb as (sb & _ & Hb);
            apply bind_Ok in Hb as (sc & _ & Hb);
            apply bind_Ok in Hb as (b & _ & Hb)).
  all: injection Hb as <-.
  all: repeat (rewrite lookup_insert_ne by done); by rewrite lookup_insert_eq.
Qed.

Lemma codegen_opts_fields_witness :
  ∃ opt swap,
    @_get_codegen_gemm_opts sample
      (Scenario.gemm false false (Scenario.int 1) (Scenario.int 0))
      (Scenario.three_inputs [2; 3]%Z [3; 4]%Z [2; 4]%Z [2; 4]%Z "_y")
      (Scenario.arrays [2; 3]%Z [3; 4]%Z [2; 4]%Z [2; 4]%Z Default)
      (Scenario.array [2; 3]%Z Default) (Scenario.array [3; 4]%Z Default)
      (Scenario.array [2; 4]%Z Default) "1.0f" "0.0f" "float" "sgemm" = Ok opt
    ∧ opt !! "x" = Some (VStr (if truthy swap then "_b" else "_a"))
    ∧ opt !! "func" = Some (VStr "sgemm").
Proof.
  assert (is_ok (@_get_codegen_gemm_opts sample
                   (Scenario.gemm false false (Scenario.int 1)
                      (Scenario.int 0))
                   (Scenario.three_inputs [2; 3]%Z [3; 4]%Z [2; 4]%Z
                      [2; 4]%Z "_y")
                   (Scenario.arrays [2; 3]%Z [3; 4]%Z [2; 4]%Z [2; 4]%Z
                      Default)
                   (Scenario.array [2; 3]%Z Default)
                   (Scenario.array [3; 4]%Z Default)
                   (Scenario.array [2; 4]%Z Default) "1.0f" "0.0f" "float"
                   "sgemm") = true) as Hok by (vm_compute; reflexivity).
  destruct (@_get_codegen_gemm_opts sample
              (Scenario.gemm false false (Scenario.int 1) (Scenario.int 0))
              (Scenario.three_inputs [2; 3]%Z [3; 4]%Z [2; 4]%Z [2; 4]%Z "_y")
              (Scenario.arrays [2; 3]%Z [3; 4]%Z [2; 4]%Z [2; 4]%Z Default)
              (Scenario.array [2; 3]%Z Default)
              (Scenario.array [3; 4]%Z Default)
              (Scenario.array [2; 4]%Z Default) "1.0f" "0.0f" "float" "sgemm")
    as [opt|e] eqn:Ho; [|discriminate Hok].
  destruct (@codegen_opts_fields sample _ _ _ _ _ _ _ _ _ _ _ Ho)
    as (inputs & base & swap & m & n & k & lda & ldb & ldc & _ & _ & _ & _ & _
        & _ & _ & _ & _ & _ & _ & _ & Hx & _ & _ & _ & _ & _ & _ & _ & _ & _
        & Hf).
  exists opt, swap. split; [reflexivity|]. split; [exact Hx | exact Hf].
Defined.

(** X19.  Whenever the option builder returns, [BATCH] is [None] exactly
    when batch detection returned the empty dictionary.  Otherwise [BATCH]
    is the rendered batch size, [stride_c] the rendered stride of C, and
    [stride_a] and [stride_b] the rendered strides of A and B, exchanged
    when [get_gemm_opts] asks for a swap. *)
Theorem codegen_opts_batch `{Collaborators} node state sdfg adesc bdesc cdesc
    alpha beta cdtype func opt :
  _get_codegen_gemm_opts node state sdfg adesc bdesc cdesc alpha beta cdtype
    func = Ok opt →
  ∃ inputs base swap bopt,
    _get_matmul_inputs node state sdfg = Ok inputs
    ∧ get_gemm_opts (in_strides (input_a inputs))
        (in_strides (input_b inputs)) (Array.strides cdesc) = Ok base
    ∧ base !! "swap" = Some swap
    ∧ _get_batchmm_opts (in_shape (input_a inputs))
        (in_strides (input_a inputs)) (in_shape (input_b inputs))
        (in_strides (input_b inputs)) (Some (Array.shape cdesc))
        (Array.strides cdesc) = Ok bopt
    ∧ (opt !! "BATCH" = Some VNone ↔ bopt = ∅)
    ∧ (bopt ≠ ∅ →
       ∃ sa sb sc b,
         bopt !! "sa" = Some sa ∧ bopt !! "sb" = Some sb
         ∧ bopt !! "sc" = Some sc ∧ bopt !! "b" = Some b
         ∧ opt !! "BATCH" = Some (VStr (sym2cpp (VSym b)))
         ∧ opt !! "stride_a"
           = Some (VStr (sym2cpp (VSym (if truthy swap then sb else sa))))
         ∧ opt !! "stride_b"
           = Some (VStr (sym2cpp (VSym (if truthy swap then sa else sb))))
         ∧ opt !! "stride_c" = Some (VStr (sym2cpp (VSym sc)))).
Proof.
  intros
    (inputs & base & bopt & m & n & k & lda & ldb & ldc & swap & opt1
     & bopt1 & Hin & Hbase & Hbopt & _ & _ & _ & _ & _ & _ & Hswap & Hs
     & Hb)%codegen_opts_inv.
  exists inputs, base, swap, bopt. do 4 (split; [done|]).
  assert ((bopt = ∅ ∧ bopt1 = ∅)
          ∨ (bopt ≠ ∅ ∧ dict_truthy bopt1 = true
             ∧ bopt1 !! "sa" = bopt !! (if truthy swap then "sb" else "sa")
             ∧ bopt1 !! "sb" = bopt !! (if truthy swap then "sa" else "sb")
             ∧ bopt1 !! "sc" = bopt !! "sc" ∧ bopt1 !! "b" = bopt !! "b"))
    as Hcases.
  { destruct (decide (bopt = ∅)) as [-> | Hne]; [left | right].
    - split; [done|]. destruct (truthy swap); [|by injection Hs as _ <-].
      unfold swap_operands in Hs.
      apply bind_Ok in Hs as (b1 & Hb1 & Hs).
      unfold dict_truthy in Hb1. rewrite bool_decide_eq_true_2 in Hb1 by done.
      injection Hb1 as <-.
      repeat (apply bind_Ok in Hs as (? & _ & Hs)). by injection Hs as _ <-.
    - split; [done|]. destruct (truthy swap).
      + unfold swap_operands in Hs.
        assert (dict_truthy bopt = true) as Ht
          by (unfold dict_truthy; by rewrite bool_decide_eq_false_2).
        rewrite Ht in Hs.
        apply bind_Ok in Hs as (b1 & Hb1 & Hs).
        repeat (apply bind_Ok in Hs as (? & _ & Hs)). injection Hs as _ <-.
        rewrite !(swap_items_lookup _ _ _ _ _ Hb1).
        apply swap_items_Ok in Hb1 as (? & ? & _ & _ & ->).
        by rewrite dict_truthy_insert.
      + injection Hs as _ <-. repeat split.
        unfold dict_truthy. by rewrite bool_decide_eq_false_2. }
  unfold batch_items in Hb.
  destruct Hcases as [[-> ->] | (Hne & Ht & Hsa & Hsb & Hsc & Hbb)].
  - unfold dict_truthy in Hb. rewrite bool_decide_eq_true_2 in Hb by done.
    injection Hb as <-. split; [|done].
    by rewrite lookup_insert_eq.
  - rewrite Ht in Hb.
    apply bind_Ok in Hb as (sa & Hgsa%getitem_Ok & Hb).
    apply bind_Ok in Hb as (sb & Hgsb%getitem_Ok & Hb).
    apply bind_Ok in Hb as (sc & Hgsc%getitem_Ok & Hb).
    apply bind_Ok in Hb as (b & Hgb%getitem_Ok & [= <-]).
    rewrite Hsa in Hgsa. rewrite Hsb in Hgsb. rewrite Hsc in Hgsc.
    rewrite Hbb in Hgb.
    split.
    + rewrite lookup_insert_eq. split; [discriminate | done].
    + intros _.
      destruct (truthy swap);
        [exists sb, sa, sc, b | exists sa, sb, sc, b];
        repeat split; try done;
        repeat (rewrite lookup_insert_ne by done); by rewrite lookup_insert_eq.
Qed.

Lemma codegen_opts_batch_witness :
  ∃ opt (bopt : gmap string Z),
    @_get_codegen_gemm_opts sample
      (Scenario.gemm false false (Scenario.int 1) (Scenario.int 0))
      (Scenario.three_inputs [2; 5; 3]%Z [3; 4]%Z [2; 5; 4]%Z [2; 5; 4]%Z "_y")
      (Scenario.arrays [2; 5; 3]%Z [3; 4]%Z [2; 5; 4]%Z [2; 5; 4]%Z Default)
      (Scenario.array [2; 5; 3]%Z Default) (Scenario.array [3; 4]%Z Default)
      (Scenario.array [2; 5; 4]%Z Default) "1.0f" "0.0f" "float" "sgemm"
    = Ok opt
    ∧ (opt !! "BATCH" = Some VNone ↔ bopt = ∅).
Proof.
  assert (is_ok (@_get_codegen_gemm_opts sample
                   (Scenario.gemm false false (Scenario.int 1)
                      (Scenario.int 0))
                   (Scenario.three_inputs [2; 5; 3]%Z [3; 4]%Z [2; 5; 4]%Z
                      [2; 5; 4]%Z "_y")
                   (Scenario.arrays [2; 5; 3]%Z [3; 4]%Z [2; 5; 4]%Z
                      [2; 5; 4]%Z Default)
                   (Scenario.array [2; 5; 3]%Z Default)
                   (Scenario.array [3; 4]%Z Default)
                   (Scenario.array [2; 5; 4]%Z Default) "1.0f" "0.0f" "float"
                   "sgemm") = true) as Hok by (vm_compute; reflexivity).
  destruct (@_get_codegen_gemm_opts sample
              (Scenario.gemm false false (Scenario.int 1) (Scenario.int 0))
              (Scenario.three_inputs [2; 5; 3]%Z [3; 4]%Z [2; 5; 4]%Z
                 [2; 5; 4]%Z "_y")
              (Scenario.arrays [2; 5; 3]%Z [3; 4]%Z [2; 5; 4]%Z [2; 5; 4]%Z
                 Default)
              (Scenario.array [2; 5; 3]%Z Default)
              (Scenario.array [3; 4]%Z Default)
              (Scenario.array [2; 5; 4]%Z Default) "1.0f" "0.0f" "float"
              "sgemm")
    as [opt|e] eqn:Ho; [|discriminate Hok].
  destruct (@codegen_opts_batch sample _ _ _ _ _ _ _ _ _ _ _ Ho)
    as (inputs & base & swap & bopt & _ & _ & _ & _ & Hnone & _).
  exists opt, bopt. split; [reflexivity | exact Hnone].
Defined.

(** ** The BLAS lowerings, further *)

(** What an MKL lowering that returned has gone through. *)
Lemma mkl_expansion_Ok `{Collaborators} node state sdfg t :
  ExpandGemmMKL.expansion node state sdfg = Ok t →
  ∃ func alpha beta inputs out cdesc opt code,
    Gemm.validate node sdfg state = Ok ()
    ∧ ExpandGemmMKL.select_routine node = Ok (func, alpha, beta)
    ∧ _get_matmul_inputs node state sdfg = Ok inputs
    ∧ index (out_edges state) 0 = Ok out
    ∧ parent_arrays sdfg !! Memlet.data (Edge.data out) = Some cdesc
    ∧ _get_codegen_gemm_opts node state sdfg (outer_array (input_a inputs))
        (outer_array (input_b inputs)) cdesc alpha beta
        (ctype (Array.dtype cdesc)) func = Ok opt
    ∧ t = Tasklet.mk (Gemm.name node) (Gemm.in_connectors node)
            (Gemm.out_connectors node) code CPP.
Proof.
  unfold ExpandGemmMKL.expansion, ExpandGemmMKL.emit. intros He.
  apply bind_Ok in He as ([] & Hv & He).
  apply bind_Ok in He as ([[func alpha] beta] & Hsel & He).
  apply bind_Ok in He as (inputs & Hin & He).
  apply bind_Ok in He as (out & Hout & He).
  apply bind_Ok in He as (cdesc & Hc%getitem_Ok & He).
  apply bind_Ok in He as (opt & Ho & He).
  apply bind_Ok in He as (ta & _ & He).
  apply bind_Ok in He as (tb & _ & He).
  apply bind_Ok in He as (batch & _ & He).
  apply bind_Ok in He as (code & _ & [= <-]).
  by exists func, alpha, beta, inputs, out, cdesc, opt, code.
Qed.

(** X20.  The MKL lowering takes the output array from the memlet of the
    node's one output edge, by its data name and whatever the connector
    the edge leaves at.  Whenever the lowering returns, the parent SDFG
    declares that array, and the result is a C++ tasklet with the node's
    name and connectors; when validation, the choice of the routine and
    the input finder succeed and the parent SDFG does not declare the
    array, the lowering raises [KeyError] with the name. *)
Theorem mkl_output_array `{Collaborators} node state sdfg out :
  out_edges state = [out] →
  (∀ t, ExpandGemmMKL.expansion node state sdfg = Ok t →
        is_Some (parent_arrays sdfg !! Memlet.data (Edge.data out))
        ∧ Tasklet.name t = Gemm.name node
        ∧ Tasklet.in_connectors t = Gemm.in_connectors node
        ∧ Tasklet.out_connectors t = Gemm.out_connectors node
        ∧ Tasklet.language t = CPP)
  ∧ (Gemm.validate node sdfg state = Ok () →
     is_ok (ExpandGemmMKL.select_routine node) = true →
     is_ok (_get_matmul_inputs node state sdfg) = true →
     parent_arrays sdfg !! Memlet.data (Edge.data out) = None →
     ExpandGemmMKL.expansion node state sdfg
     = Raise (KeyError (Memlet.data (Edge.data out)))).
Proof.
  intros Hout. split.
  - intros t (func & alpha & beta & inputs & out' & cdesc & opt & code & _ & _
              & _ & Ho & Hc & _ & ->)%mkl_expansion_Ok.
    rewrite Hout in Ho. injection Ho as <-. by rewrite Hc.
  - intros Hv Hsel Hin Hnone.
    unfold ExpandGemmMKL.expansion, ExpandGemmMKL.emit. rewrite Hv. simpl.
    destruct (ExpandGemmMKL.select_routine node) as [[[func alpha] beta]|];
      [simpl|done].
    destruct (_get_matmul_inputs node state sdfg) as [inputs|]; [simpl|done].
    rewrite Hout. simpl. unfold getitem. by rewrite Hnone.
Qed.

Lemma mkl_output_array_witness :
  @ExpandGemmMKL.expansion sample
    (Scenario.gemm false false (Scenario.int 1) (Scenario.int 0))
    {| in_edges :=
         [Scenario.input "_a" "A" [2; 3]%Z; Scenario.input "_b" "B" [3; 4]%Z;
          Scenario.input "_c" "C" [2; 4]%Z];
       out_edges := [Scenario.output "_y" "Z" [2; 4]%Z] |}
    (Scenario.arrays [2; 3]%Z [3; 4]%Z [2; 4]%Z [2; 4]%Z Default)
  = Raise (KeyError "Z").
Proof.
  apply (@mkl_output_array sample _ _ _ (Scenario.output "_y" "Z" [2; 4]%Z));
    vm_compute; reflexivity.
Defined.

Lemma lower_app s1 s2 : lower (s1 +:+ s2) = lower s1 +:+ lower s2.
Proof. induction s1 as [|c s1 IH]; simpl; [done | by rewrite IH]. Qed.

(** X21.  On a node of element type [t] for which [to_blastype] gives
    [letter], the cuBLAS lowering chooses the routine [letter + 'gemm']
    with the C type and the constants of [t] for [float16], [float32],
    [float64], [complex64] and [complex128], and raises its
    unsupported-type error for every other type; after a validation
    that succeeded this is the error of the lowering. *)
Theorem cublas_type_dispatch `{Collaborators} node state sdfg t letter :
  Gemm.dtype node = Some t → to_blastype t = Ok letter →
  (∀ cdtype factort,
     (t, (cdtype, factort)) ∈ cublas_types →
     ExpandGemmCuBLAS.select_routine node
     = Ok (letter +:+ "gemm", cdtype, factort))
  ∧ (t ∉ cublas_types.*1 →
     ExpandGemmCuBLAS.select_routine node
     = Raise (ExpandGemmCuBLAS.unsupported_type t)
     ∧ (Gemm.validate node sdfg state = Ok () →
        ExpandGemmCuBLAS.expansion node state sdfg
        = Raise (ExpandGemmCuBLAS.unsupported_type t))).
Proof.
  intros Hd Hl.
  unfold ExpandGemmCuBLAS.expansion, ExpandGemmCuBLAS.select_routine,
    dtype_type, cublas_types.
  rewrite Hd. simpl. rewrite Hl. simpl. split.
  - intros cdtype factort. rewrite !elem_of_cons, elem_of_nil.
    intros Hin. repeat destruct Hin as [[= -> -> ->] | Hin]; done.
  - rewrite !not_elem_of_cons. intros (? & ? & ? & ? & ? & _).
    rewrite !decide_False by done. split; [done|]. by intros ->.
Qed.

Lemma cublas_type_dispatch_witness :
  @ExpandGemmCuBLAS.select_routine sample
    (Gemm.__init__ "gemm" (Some float16) false false (Scenario.int 1)
       (Scenario.int 0))
  = Ok ("H" +:+ "gemm", "__half", "Half").
Proof.
  destruct (@cublas_type_dispatch sample
              (Gemm.__init__ "gemm" (Some float16) false false
                 (Scenario.int 1) (Scenario.int 0))
              (Scenario.three_inputs [2; 3]%Z [3; 4]%Z [2; 4]%Z [2; 4]%Z "_c")
              (Scenario.arrays [2; 3]%Z [3; 4]%Z [2; 4]%Z [2; 4]%Z Default)
              float16 "H" eq_refl eq_refl) as [Hsel _].
  apply Hsel. apply list_elem_of_here.
Defined.

(** X22.  Every element type for which the MKL lowering has a routine,
    the cuBLAS lowering has one too, and the name of the MKL routine is
    the name of the cuBLAS routine in lower case; for [float16] with a
    BLAS letter, cuBLAS has a routine and MKL raises. *)
Theorem blas_routine_names `{Collaborators} node :
  (∀ func alpha beta,
     ExpandGemmMKL.select_routine node = Ok (func, alpha, beta) →
     ∃ name cdtype factort,
       ExpandGemmCuBLAS.select_routine node = Ok (name, cdtype, factort)
       ∧ func = lower name)
  ∧ (∀ letter,
       Gemm.dtype node = Some float16 → to_blastype float16 = Ok letter →
       is_ok (ExpandGemmCuBLAS.select_routine node) = true
       ∧ ExpandGemmMKL.select_routine node
         = Raise (ExpandGemmMKL.unsupported_type float16)).
Proof.
  unfold ExpandGemmMKL.select_routine, ExpandGemmCuBLAS.select_routine,
    dtype_type.
  split.
  - intros func alpha beta Hsel.
    destruct (Gemm.dtype node) as [t|]; [simpl in *|done].
    destruct (to_blastype t) as [letter|]; [simpl in *|done].
    assert (lower letter +:+ "gemm" = lower (letter +:+ "gemm")) as Hlow
      by (by rewrite lower_app).
    repeat case_decide; simplify_eq; eauto.
  - intros letter Hd Hl. rewrite Hd. simpl. rewrite Hl. done.
Qed.

Lemma blas_routine_names_witness :
  ∃ name cdtype factort,
    @ExpandGemmCuBLAS.select_routine sample
      (Scenario.gemm false false (Scenario.int 1) (Scenario.int 0))
    = Ok (name, cdtype, factort)
    ∧ lower "S" +:+ "gemm" = lower name.
Proof.
  destruct (@blas_routine_names sample
              (Scenario.gemm false false (Scenario.int 1) (Scenario.int 0)))
    as [Hnames _].
  apply (Hnames _ "1.0f" "0.0f"). reflexivity.
Defined.

(** The descriptors that the loop over the input edges has found were
    each reached through an access node. *)
Lemma find_input_inv sdfg (ins : list Edge.t) a0 b0 a b :
  for_each (ExpandGemmCuBLAS.find_input sdfg) ins (a0, b0) = Ok (a, b) →
  (a = a0
   ∨ ∃ e desc, e ∈ ins ∧ Edge.dst_conn e = Some "_a" ∧ a = Some desc
               ∧ reaches sdfg (Edge.path_src e) desc)
  ∧ (b = b0
     ∨ ∃ e desc, e ∈ ins ∧ Edge.dst_conn e = Some "_b" ∧ b = Some desc
                 ∧ reaches sdfg (Edge.path_src e) desc).
Proof.
  revert a0 b0. induction ins as [|e ins IH]; intros a0 b0 Hf.
  { injection Hf as <- <-. by split; left. }
  cbn [for_each] in Hf. apply bind_Ok in Hf as ([a1 b1] & He & Hf).
  destruct (IH _ _ Hf) as [Ha Hb].
  assert (∀ conn x,
            (∃ e' desc, e' ∈ ins ∧ Edge.dst_conn e' = Some conn
                        ∧ x = Some desc
                        ∧ reaches sdfg (Edge.path_src e') desc) →
            ∃ e' desc, e' ∈ e :: ins ∧ Edge.dst_conn e' = Some conn
                       ∧ x = Some desc
                       ∧ reaches sdfg (Edge.path_src e') desc) as Hlater.
  { intros conn x (e' & desc & ? & ?). exists e', desc.
    split; [by apply list_elem_of_further | done]. }
  unfold ExpandGemmCuBLAS.find_input in He.
  destruct (decide (Edge.dst_conn e = Some "_a")) as [Hca|Hca].
  - destruct (Edge.path_src e) as [data access| |] eqn:Hsrc.
    + apply bind_Ok in He as (desc & Hd%getitem_Ok & [= <- <-]). split.
      * destruct Ha as [-> | Ha]; [right | right; by apply Hlater].
        exists e, desc. split; [apply list_elem_of_here|].
        split; [done|]. split; [done|]. rewrite Hsrc. by exists data, access.
      * destruct Hb as [-> | Hb]; [by left | right; by apply Hlater].
    + injection He as <- <-. split.
      * destruct Ha as [-> | Ha]; [by left | right; by apply Hlater].
      * destruct Hb as [-> | Hb]; [by left | right; by apply Hlater].
    + injection He as <- <-. split.
      * destruct Ha as [-> | Ha]; [by left | right; by apply Hlater].
      * destruct Hb as [-> | Hb]; [by left | right; by apply Hlater].
  - destruct (decide (Edge.dst_conn e = Some "_b")) as [Hcb|Hcb].
    + destruct (Edge.path_src e) as [data access| |] eqn:Hsrc.
      * apply bind_Ok in He as (desc & Hd%getitem_Ok & [= <- <-]). split.
        -- destruct Ha as [-> | Ha]; [by left | right; by apply Hlater].
        -- destruct Hb as [-> | Hb]; [right | right; by apply Hlater].
           exists e, desc. split; [apply list_elem_of_here|].
           split; [done|]. split; [done|]. rewrite Hsrc.
           by exists data, access.
      * injection He as <- <-. split.
        -- destruct Ha as [-> | Ha]; [by left | right; by apply Hlater].
        -- destruct Hb as [-> | Hb]; [by left | right; by apply Hlater].
      * injection He as <- <-. split.
        -- destruct Ha as [-> | Ha]; [by left | right; by apply Hlater].
        -- destruct Hb as [-> | Hb]; [by left | right; by apply Hlater].
    + injection He as <- <-. split.
      * destruct Ha as [-> | Ha]; [by left | right; by apply Hlater].
      * destruct Hb as [-> | Hb]; [by left | right; by apply Hlater].
Qed.

Lemma find_output_inv sdfg (outs : list Edge.t) c0 c :
  for_each (ExpandGemmCuBLAS.find_output sdfg) outs c0 = Ok c →
  c = c0
  ∨ ∃ e desc, e ∈ outs ∧ Edge.src_conn e = Some "_c" ∧ c = Some desc
              ∧ reaches sdfg (Edge.path_dst e) desc.
Proof.
  revert c0. induction outs as [|e outs IH]; intros c0 Hf.
  { injection Hf as <-. by left. }
  cbn [for_each] in Hf. apply bind_Ok in Hf as (c1 & He & Hf).
  destruct (IH _ Hf) as [-> | (e' & desc & ? & ?)];
    [|right; exists e', desc; split; [by apply list_elem_of_further | done]].
  unfold ExpandGemmCuBLAS.find_output in He.
  destruct (decide (Edge.src_conn e = Some "_c")) as [Hc|Hc];
    [|injection He as <-; by left].
  destruct (Edge.path_dst e) as [data access| |] eqn:Hdst;
    [|injection He as <-; by left..].
  apply bind_Ok in He as (desc & Hd%getitem_Ok & [= <-]).
  right. exists e, desc. split; [apply list_elem_of_here|].
  split; [done|]. split; [done|]. rewrite Hdst. by exists data, access.
Qed.

(** X23.  Whenever the cuBLAS lowering returns, the three descriptors it
    works with are arrays of the parent SDFG, each reached through an
    access node: A and B at the start of the memlet path of an input edge
    that enters at [_a] and at [_b], C at the end of the memlet path of an
    output edge that leaves at [_c]. *)
Theorem cublas_descriptors `{Collaborators} node state sdfg r :
  ExpandGemmCuBLAS.expansion node state sdfg = Ok r →
  ∃ adesc bdesc cdesc ea eb ec,
    ExpandGemmCuBLAS.find_descs state sdfg
    = Ok (Some adesc, Some bdesc, Some cdesc)
    ∧ ea ∈ in_edges state ∧ Edge.dst_conn ea = Some "_a"
    ∧ reaches sdfg (Edge.path_src ea) adesc
    ∧ eb ∈ in_edges state ∧ Edge.dst_conn eb = Some "_b"
    ∧ reaches sdfg (Edge.path_src eb) bdesc
    ∧ ec ∈ out_edges state ∧ Edge.src_conn ec = Some "_c"
    ∧ reaches sdfg (Edge.path_dst ec) cdesc.
Proof.
  intros (tasklet & adesc & bdesc & cdesc & Hd & _)%cublas_expansion_Ok.
  pose proof Hd as Hd'. unfold ExpandGemmCuBLAS.find_descs in Hd'.
  apply bind_Ok in Hd' as ([a b] & Hab & Hd').
  apply bind_Ok in Hd' as (c & Hc & [= -> -> ->]).
  apply find_input_inv in Hab as [[?|(ea & da & ? & ? & [= <-] & ?)]
                                  [?|(eb & db & ? & ? & [= <-] & ?)]];
    try done.
  apply find_output_inv in Hc as [?|(ec & dc & ? & ? & [= <-] & ?)]; [done|].
  by exists adesc, bdesc, cdesc, ea, eb, ec.
Qed.

Lemma cublas_descriptors_witness :
  ∃ r adesc bdesc cdesc,
    @ExpandGemmCuBLAS.expansion sample
      (Scenario.gemm false false (Scenario.int 1) (Scenario.int 0))
      (Scenario.three_inputs [2; 3]%Z [3; 4]%Z [2; 4]%Z [2; 4]%Z "_c")
      (Scenario.arrays [2; 3]%Z [3; 4]%Z [2; 4]%Z [2; 4]%Z Default) = Ok r
    ∧ ExpandGemmCuBLAS.find_descs
        (Scenario.three_inputs [2; 3]%Z [3; 4]%Z [2; 4]%Z [2; 4]%Z "_c")
        (Scenario.arrays [2; 3]%Z [3; 4]%Z [2; 4]%Z [2; 4]%Z Default)
      = Ok (Some adesc, Some bdesc, Some cdesc).
Proof.
  assert (is_ok (@ExpandGemmCuBLAS.expansion sample
                   (Scenario.gemm false false (Scenario.int 1)
                      (Scenario.int 0))
                   (Scenario.three_inputs [2; 3]%Z [3; 4]%Z [2; 4]%Z
                      [2; 4]%Z "_c")
                   (Scenario.arrays [2; 3]%Z [3; 4]%Z [2; 4]%Z [2; 4]%Z
                      Default)) = true) as Hok by (vm_compute; reflexivity).
  destruct (@ExpandGemmCuBLAS.expansion sample
              (Scenario.gemm false false (Scenario.int 1) (Scenario.int 0))
              (Scenario.three_inputs [2; 3]%Z [3; 4]%Z [2; 4]%Z [2; 4]%Z "_c")
              (Scenario.arrays [2; 3]%Z [3; 4]%Z [2; 4]%Z [2; 4]%Z Default))
    as [r|e] eqn:He; [|discriminate Hok].
  destruct (@cublas_descriptors sample _ _ _ _ He)
    as (adesc & bdesc & cdesc & ea & eb & ec & Hd & _).
  exists r, adesc, bdesc, cdesc. split; [reflexivity | exact Hd].
Defined.

(** The staging SDFG, in full. *)
Lemma copy_to_gpu_explicit tasklet adesc bdesc cdesc :
  forallb ExpandGemmCuBLAS.on_device [adesc; bdesc; cdesc] = false →
  ExpandGemmCuBLAS.copy_to_gpu tasklet adesc bdesc cdesc
  = Ok (NestedSDFG
          (SDFG.mk "nested_gemm"
             (<["_c_gpu" := Array.mk (Array.shape cdesc) (Array.strides cdesc)
                              (Array.dtype cdesc) GPU_Global true]>
               (<["_c" := Array.mk (Array.shape cdesc) (Array.strides cdesc)
                            (Array.dtype cdesc) (Array.storage cdesc) false]>
                 (<["_b_gpu" := Array.mk (Array.shape bdesc)
                                  (Array.strides bdesc) (Array.dtype bdesc)
                                  GPU_Global true]>
                   (<["_b" := Array.mk (Array.shape bdesc)
                                (Array.strides bdesc) (Array.dtype bdesc)
                                (Array.storage bdesc) false]>
                     (<["_a_gpu" := Array.mk (Array.shape adesc)
                                      (Array.strides adesc)
                                      (Array.dtype adesc) GPU_Global true]>
                       (<["_a" := Array.mk (Array.shape adesc)
                                    (Array.strides adesc) (Array.dtype adesc)
                                    (Array.storage adesc) false]> ∅))))))
             [ExpandGemmCuBLAS.stage tasklet adesc bdesc cdesc
                (SDFGState.new "state")]
             [] None None)).
Proof.
  intros Hdev. unfold ExpandGemmCuBLAS.copy_to_gpu. rewrite Hdev.
  cbn [negb]. cbv iota. vm_compute. reflexivity.
Qed.

(** X24.  Whenever the cuBLAS lowering returns a nested SDFG, that SDFG
    is named [nested_gemm] and declares six arrays and no other: [_a],
    [_b] and [_c], copies of the three outer descriptors that keep their
    storage and are marked not transient, and [_a_gpu], [_b_gpu] and
    [_c_gpu], their transient mirrors in GPU global memory; its one state
    has seven nodes and six edges. *)
Theorem cublas_staging_arrays `{Collaborators} node state sdfg g :
  ExpandGemmCuBLAS.expansion node state sdfg = Ok (NestedSDFG g) →
  ∃ adesc bdesc cdesc st,
    ExpandGemmCuBLAS.find_descs state sdfg
    = Ok (Some adesc, Some bdesc, Some cdesc)
    ∧ SDFG.name g = "nested_gemm"
    ∧ host_copy g "_a" adesc ∧ host_copy g "_b" bdesc ∧ host_copy g "_c" cdesc
    ∧ gpu_mirror g "_a" adesc ∧ gpu_mirror g "_b" bdesc
    ∧ gpu_mirror g "_c" cdesc
    ∧ (∀ n, is_Some (SDFG.arrays g !! n) ↔
            n ∈ ["_a"; "_a_gpu"; "_b"; "_b_gpu"; "_c"; "_c_gpu"])
    ∧ SDFG.states g = [st]
    ∧ length (SDFGState.nodes st) = 7%nat
    ∧ length (SDFGState.edges st) = 6%nat.
Proof.
  intros (tasklet & adesc & bdesc & cdesc & Hd & _ & _ & _ & _ & Hc)
    %cublas_expansion_Ok.
  destruct (forallb ExpandGemmCuBLAS.on_device [adesc; bdesc; cdesc]) eqn:Hdev.
  { by rewrite (copy_to_gpu_bare _ _ _ _ Hdev) in Hc. }
  rewrite (copy_to_gpu_explicit _ _ _ _ Hdev) in Hc. injection Hc as <-.
  eexists adesc, bdesc, cdesc, _. split; [done|]. split; [done|].
  unfold host_copy, gpu_mirror. simpl.
  do 6 (split; [by repeat (rewrite lookup_insert_ne by done);
                   rewrite lookup_insert_eq|]).
  split; [|by repeat split].
  intros n. rewrite !elem_of_cons, elem_of_nil. split.
  - intros [d Hn].
    repeat (apply lookup_insert_Some in Hn as [[<- _] | [_ Hn]]; [tauto|]).
    by rewrite lookup_empty in Hn.
  - intros Hn. repeat destruct Hn as [-> | Hn]; try done.
    all: repeat (rewrite lookup_insert_ne by done);
      by rewrite lookup_insert_eq.
Qed.

Lemma cublas_staging_arrays_witness :
  ∃ g st,
    @ExpandGemmCuBLAS.expansion sample
      (Scenario.gemm false false (Scenario.int 1) (Scenario.int 0))
      (Scenario.three_inputs [2; 3]%Z [3; 4]%Z [2; 4]%Z [2; 4]%Z "_c")
      (Scenario.arrays [2; 3]%Z [3; 4]%Z [2; 4]%Z [2; 4]%Z Default)
    = Ok (NestedSDFG g)
    ∧ SDFG.states g = [st] ∧ length (SDFGState.nodes st) = 7%nat.
Proof.
  assert ((r ← @ExpandGemmCuBLAS.expansion sample
                 (Scenario.gemm false false (Scenario.int 1) (Scenario.int 0))
                 (Scenario.three_inputs [2; 3]%Z [3; 4]%Z [2; 4]%Z [2; 4]%Z
                    "_c")
                 (Scenario.arrays [2; 3]%Z [3; 4]%Z [2; 4]%Z [2; 4]%Z
                    Default);
           Ok (match r with NestedSDFG _ => true | BareTasklet _ => false end))
          = Ok true) as Hok by (vm_compute; reflexivity).
  destruct (@ExpandGemmCuBLAS.expansion sample
              (Scenario.gemm false false (Scenario.int 1) (Scenario.int 0))
              (Scenario.three_inputs [2; 3]%Z [3; 4]%Z [2; 4]%Z [2; 4]%Z "_c")
              (Scenario.arrays [2; 3]%Z [3; 4]%Z [2; 4]%Z [2; 4]%Z Default))
    as [[t|g]|e] eqn:He; [discriminate Hok | | discriminate Hok].
  destruct (@cublas_staging_arrays sample _ _ _ _ He)
    as (adesc & bdesc & cdesc & st & _ & _ & _ & _ & _ & _ & _ & _ & _ & Hst
        & Hn & _).
  exists g, st. split; [reflexivity|]. split; [exact Hst | exact Hn].
Defined.
